(** * cvox.NavigationShifter: the granularity / mode controller of ChromeVox

    A shallow embedding of
    [trunk/chromevox/chromevox/injected/navigation_shifter.js].

    The shifter owns a chain of walkers ordered by granularity, a current
    index into that chain, a subnavigation flag and the table / math mode
    flags.  Every walker, the DOM helpers of [cvox.DomUtil] and
    [cvox.CursorSelection] live in other files; they enter the development
    through the class [Collaborators]. *)

From stdpp Require Import base strings gmap list.
From Stdlib Require Import ZArith Lia.

Local Open Scope Z_scope.

(** ** JavaScript values held by the numeric fields

    [currentWalkerIndex_] is a JavaScript number.  [setGranularity] stores
    whatever it is given and [readFrom] hands it [store['granularity']],
    which is [undefined] for a store without that key, after which
    [x - 1] and [x + 1] are [NaN].  Numbers are integers here; fractions and
    magnitudes beyond 2^53 are outside the model. *)

Inductive jsval : Type :=
| Num (z : Z)
| NaN
| Undefined.

#[global] Instance jsval_eq_dec : EqDecision jsval.
Proof. solve_decision. Defined.

(** [v - 1] and [v + 1]: ToNumber(undefined) is NaN. *)
Definition js_pred (v : jsval) : jsval :=
  match v with Num z => Num (z - 1) | _ => NaN end.

Definition js_succ (v : jsval) : jsval :=
  match v with Num z => Num (z + 1) | _ => NaN end.

(** [Math.max] and [Math.min] on two arguments: NaN as soon as one is. *)
Definition Math_max (a b : jsval) : jsval :=
  match a, b with Num x, Num y => Num (Z.max x y) | _, _ => NaN end.

Definition Math_min (a b : jsval) : jsval :=
  match a, b with Num x, Num y => Num (Z.min x y) | _, _ => NaN end.

(** [arr[v]]: an array has a property only at the indices 0 .. length-1;
    at a negative number, NaN or undefined the read gives [undefined]. *)
Definition array_get {A : Type} (arr : list A) (v : jsval) : option A :=
  match v with
  | Num z => if 0 <=? z then arr !! Z.to_nat z else None
  | _ => None
  end.

(** [arr.indexOf(x)]: first position of [x], or -1. *)
Fixpoint indexOf_from {A : Type} `{EqDecision A} (x : A) (arr : list A) (i : Z) : Z :=
  match arr with
  | [] => -1
  | y :: rest => if decide (y = x) then i else indexOf_from x rest (i + 1)
  end.

Definition indexOf {A : Type} `{EqDecision A} (x : A) (arr : list A) : jsval :=
  Num (indexOf_from x arr 0).

(** ** The walkers

    [reset_] creates one object of each walker class and never replaces it,
    so a walker reference is the name of its class and [==] on references is
    equality of names. *)

Inductive Walker : Type :=
| CharacterWalker
| WordWalker
| LineWalker
| SentenceWalker
| ObjectWalker
| GroupWalker
| VisualWalker
| TableWalker
| MathWalker.

#[global] Instance Walker_eq_dec : EqDecision Walker.
Proof. solve_decision. Defined.

(** [cvox.NavigationShifter.GRANULARITIES] *)
Module GRANULARITIES.
Definition CHARACTER : Z := 0.
Definition WORD : Z := 1.
Definition LINE : Z := 2.
Definition SENTENCE : Z := 3.
Definition OBJECT : Z := 4.
Definition GROUP : Z := 5.
Definition VISUAL : Z := 6.
End GRANULARITIES.
Import GRANULARITIES.

(** The eight cell moves the shifter forwards to the table walker. *)
Inductive TableMove : Type :=
| goToFirstCell | goToLastCell
| goToRowFirstCell | goToRowLastCell
| goToColFirstCell | goToColLastCell
| nextRow | nextCol.

(** [kwargs] of [tryEnterTable]; an absent field reads as falsy. *)
Record TableKwargs : Type := { force : bool; fromTop : bool }.

(** ** What the shifter needs from the rest of ChromeVox

    None of this is in [navigation_shifter.js].  A nullable
    [cvox.CursorSelection] is an [option CursorSelection].  The methods every
    walker offers are functions of the walker and the selection: the
    traversal caches of the walkers are not modelled.  The math walker is
    the exception, its sub-mode state is the type [MathState], because the
    shifter drives it through [reset], [cycleDomain], [cycleTraversalMode],
    [toggleExplore] and [setSavedGranularity]. *)

Class Collaborators : Type := {
  Node : Type;
  CursorSelection : Type;
  MathState : Type;
  NavDescription : Type;
  NavBraille : Type;
  (* sel.start.node, sel.setReversed(rev) *)
  start_node : CursorSelection -> Node;
  setReversed : bool -> CursorSelection -> CursorSelection;
  (* the selection that cvox.CursorSelection.fromNode builds at a node *)
  selectionAt : Node -> CursorSelection;
  (* cvox.DomUtil *)
  getContainingTable : Node -> option Node;
  isLayoutTable : Node -> bool;
  getContainingMath : Node -> option Node;
  directedNextLeafNode : Node -> bool -> option Node;
  hasContent : Node -> bool;
  countFocusableDescendants : Node -> nat;
  (* cvox.AbstractWalker *)
  walker_next : Walker -> CursorSelection -> option CursorSelection;
  walker_sync : Walker -> option CursorSelection -> option CursorSelection;
  walker_act : Walker -> CursorSelection -> bool;
  walker_syncToPageBeginning : Walker -> bool -> CursorSelection;
  walker_getDescription :
    Walker -> CursorSelection -> CursorSelection -> list NavDescription;
  walker_getBraille :
    Walker -> CursorSelection -> CursorSelection -> NavBraille;
  walker_getGranularityMsg : Walker -> string;
  (* cvox.ObjectWalker *)
  object_findNext :
    CursorSelection -> (list Node -> bool) -> option CursorSelection;
  (* cvox.TableWalker *)
  table_move : TableMove -> option CursorSelection -> option CursorSelection;
  table_getHeaderText : option CursorSelection -> string;
  table_getLocationDescription : CursorSelection -> list NavDescription;
  table_isInTable : CursorSelection -> bool;
  (* cvox.MathWalker *)
  math_new : MathState;
  math_reset : MathState -> MathState;
  math_cycleDomain : MathState -> MathState;
  math_cycleTraversalMode : MathState -> MathState;
  math_toggleExplore : MathState -> MathState;
  math_setSavedGranularity : jsval -> MathState -> MathState;
  math_getDomainMsg : MathState -> string;
  math_getTraversalModeMsg : MathState -> string;
  math_isInMath : CursorSelection -> bool
}.

(** Modelled from the spec: [cvox.CursorSelection.fromNode] is not in this
    file.  "Builds a selection at that leaf": a node gives the selection at
    it; the shifter tests the result for null, which is what no node
    gives. *)
Definition fromNode `{Collaborators} (node : option Node) : option CursorSelection :=
  selectionAt <$> node.

(** ** How a call ends

    A method can return, throw (a method called on [undefined]: the
    [TypeError] of [this.currentWalker_.next] when the index is outside the
    chain), or, for the leaf walk of [tryExitMath], use up its fuel. *)

Inductive Completion (A : Type) : Type :=
| Normal (a : A)
| TypeError
| OutOfFuel.
Arguments Normal {A} a.
Arguments TypeError {A}.
Arguments OutOfFuel {A}.

Section Shifter.
Context `{C : Collaborators}.

(** ** The fields of a [cvox.NavigationShifter]

    The nine walker fields ([tableWalker_], [groupWalker_], ...) are written
    once by [reset_] and are the constructors of [Walker]; [mathWalker_]
    here is the state inside the math walker object. *)

Record State : Type := {
  isSubnavigating_ : bool;
  isTableMode_ : bool;
  isMathMode_ : bool;
  mathWalker_ : MathState;
  walkers_ : list Walker;
  currentWalkerIndex_ : jsval;
  currentWalker_ : option Walker
}.

Definition M (A : Type) : Type := State -> Completion A * State.

Definition ret {A : Type} (a : A) : M A := fun s => (Normal a, s).

Definition bind {A B : Type} (m : M A) (k : A -> M B) : M B :=
  fun s =>
    match m s with
    | (Normal a, s') => k a s'
    | (TypeError, s') => (TypeError, s')
    | (OutOfFuel, s') => (OutOfFuel, s')
    end.

Notation "x <- m ;; k" := (bind m (fun x => k))
  (at level 100, m at next level, right associativity).
Notation "m ;;; k" := (bind m (fun _ => k))
  (at level 100, right associativity).

(** A method that only assigns fields. *)
Definition modify (f : State -> State) : M unit := fun s => (Normal tt, f s).

(** Field assignments. *)
Definition set_isSubnavigating (b : bool) (s : State) : State :=
  {| isSubnavigating_ := b; isTableMode_ := isTableMode_ s;
     isMathMode_ := isMathMode_ s; mathWalker_ := mathWalker_ s;
     walkers_ := walkers_ s; currentWalkerIndex_ := currentWalkerIndex_ s;
     currentWalker_ := currentWalker_ s |}.

Definition set_isTableMode (b : bool) (s : State) : State :=
  {| isSubnavigating_ := isSubnavigating_ s; isTableMode_ := b;
     isMathMode_ := isMathMode_ s; mathWalker_ := mathWalker_ s;
     walkers_ := walkers_ s; currentWalkerIndex_ := currentWalkerIndex_ s;
     currentWalker_ := currentWalker_ s |}.

Definition set_isMathMode (b : bool) (s : State) : State :=
  {| isSubnavigating_ := isSubnavigating_ s; isTableMode_ := isTableMode_ s;
     isMathMode_ := b; mathWalker_ := mathWalker_ s;
     walkers_ := walkers_ s; currentWalkerIndex_ := currentWalkerIndex_ s;
     currentWalker_ := currentWalker_ s |}.

Definition set_mathWalker (m : MathState) (s : State) : State :=
  {| isSubnavigating_ := isSubnavigating_ s; isTableMode_ := isTableMode_ s;
     isMathMode_ := isMathMode_ s; mathWalker_ := m;
     walkers_ := walkers_ s; currentWalkerIndex_ := currentWalkerIndex_ s;
     currentWalker_ := currentWalker_ s |}.

Definition set_walkers (ws : list Walker) (s : State) : State :=
  {| isSubnavigating_ := isSubnavigating_ s; isTableMode_ := isTableMode_ s;
     isMathMode_ := isMathMode_ s; mathWalker_ := mathWalker_ s;
     walkers_ := ws; currentWalkerIndex_ := currentWalkerIndex_ s;
     currentWalker_ := currentWalker_ s |}.

Definition set_currentWalkerIndex (i : jsval) (s : State) : State :=
  {| isSubnavigating_ := isSubnavigating_ s; isTableMode_ := isTableMode_ s;
     isMathMode_ := isMathMode_ s; mathWalker_ := mathWalker_ s;
     walkers_ := walkers_ s; currentWalkerIndex_ := i;
     currentWalker_ := currentWalker_ s |}.

Definition set_currentWalker (w : option Walker) (s : State) : State :=
  {| isSubnavigating_ := isSubnavigating_ s; isTableMode_ := isTableMode_ s;
     isMathMode_ := isMathMode_ s; mathWalker_ := mathWalker_ s;
     walkers_ := walkers_ s; currentWalkerIndex_ := currentWalkerIndex_ s;
     currentWalker_ := w |}.

(** [this.currentWalker_ = this.walkers_[this.currentWalkerIndex_];] *)
Definition refreshCurrentWalker (s : State) : State :=
  set_currentWalker (array_get (walkers_ s) (currentWalkerIndex_ s)) s.

(** [this.walkers_[GRANULARITIES.GROUP] = w;]  The chain has seven entries
    from [reset_] on and no other slot is ever assigned, so the write is in
    range (lemma [wf_walkers_length]). *)
Definition set_group_slot (w : Walker) (s : State) : State :=
  set_walkers (<[Z.to_nat GROUP := w]> (walkers_ s)) s.

(** ** reset_ : the state the constructor leaves *)
Definition reset_ : State :=
  let walkers :=
    [CharacterWalker; WordWalker; LineWalker; SentenceWalker;
     ObjectWalker; GroupWalker; VisualWalker] in
  let index := indexOf GroupWalker walkers in
  {| isSubnavigating_ := false;
     isTableMode_ := false;
     isMathMode_ := false;
     mathWalker_ := math_new;
     walkers_ := walkers;
     currentWalkerIndex_ := index;
     currentWalker_ := array_get walkers index |}.

(** ** Granularity and subnavigation *)

(** The two assignments of [makeLessGranular] after its call of
    [ensureNotSubnavigating]. *)
Definition shiftLess (s : State) : State :=
  refreshCurrentWalker
    (set_currentWalkerIndex
       (Math_min (js_succ (currentWalkerIndex_ s))
                 (Num (Z.of_nat (length (walkers_ s)) - 1))) s).

(** [ensureNotSubnavigating] clears the flag and then calls
    [makeLessGranular], whose own [ensureNotSubnavigating] finds the flag
    already clear; [ensureNotSubnavigating_unfold] states the method in the
    source's terms. *)
Definition ensureNotSubnavigating (s : State) : State :=
  if isSubnavigating_ s then shiftLess (set_isSubnavigating false s) else s.

Definition makeLessGranular (s : State) : State :=
  shiftLess (ensureNotSubnavigating s).

Definition makeMoreGranular (s : State) : State :=
  let s1 := ensureNotSubnavigating s in
  refreshCurrentWalker
    (set_currentWalkerIndex
       (Math_max (js_pred (currentWalkerIndex_ s1)) (Num 0)) s1).

Definition setGranularity (granularity : jsval) (s : State) : State :=
  refreshCurrentWalker
    (set_currentWalkerIndex granularity (ensureNotSubnavigating s)).

Definition isSubnavigating (s : State) : bool := isSubnavigating_ s.

Definition ensureSubnavigating (s : State) : State :=
  if isSubnavigating_ s then s
  else set_isSubnavigating true (makeMoreGranular s).

Definition getGranularity (s : State) : jsval * State :=
  let wasSubnavigating := isSubnavigating s in
  let s1 := ensureNotSubnavigating s in
  let r := currentWalkerIndex_ s1 in
  (r, if wasSubnavigating then ensureSubnavigating s1 else s1).

(** ** Table mode *)

Definition isTableMode (s : State) : bool :=
  isTableMode_ s && bool_decide (currentWalker_ s = Some TableWalker).

Definition ensureTableMode_ (s : State) : State :=
  refreshCurrentWalker
    (set_currentWalkerIndex (Num GROUP)
       (set_group_slot TableWalker (set_isTableMode true s))).

Definition ensureNotTableMode (s : State) : State :=
  refreshCurrentWalker
    (set_group_slot GroupWalker (set_isTableMode false s)).

(** ** Math mode *)

Definition isMathMode (s : State) : bool :=
  isMathMode_ s && bool_decide (currentWalker_ s = Some MathWalker).

Definition ensureNotMathMode (s : State) : State :=
  refreshCurrentWalker
    (set_group_slot GroupWalker
       (set_mathWalker (math_reset (mathWalker_ s))
          (set_isMathMode false s))).

Definition ensureMathMode_ (s : State) : State :=
  let s1 := set_group_slot MathWalker (set_isMathMode true s) in
  let s2 :=
    set_mathWalker
      (math_setSavedGranularity (currentWalkerIndex_ s1) (mathWalker_ s1)) s1 in
  refreshCurrentWalker (set_currentWalkerIndex (Num GROUP) s2).

Definition cycleDomain (s : State) : State :=
  set_mathWalker (math_cycleDomain (mathWalker_ s)) s.

Definition cycleTraversalMode (s : State) : State :=
  set_mathWalker (math_cycleTraversalMode (mathWalker_ s)) s.

Definition toggleExplore (s : State) : State :=
  set_mathWalker (math_toggleExplore (mathWalker_ s)) s.

Definition getDomainMsg (s : State) : string :=
  math_getDomainMsg (mathWalker_ s).

Definition getTraversalModeMsg (s : State) : string :=
  math_getTraversalModeMsg (mathWalker_ s).

Definition isInMath (sel : CursorSelection) : bool := math_isInMath sel.

(** ** Delegation to the current walker

    [this.currentWalker_.m(...)] throws when [currentWalker_] is
    [undefined]. *)

Definition onCurrentWalker {A : Type} (f : Walker -> A) : M A :=
  fun s =>
    match currentWalker_ s with
    | Some w => (Normal (f w), s)
    | None => (TypeError, s)
    end.

Definition next (sel : CursorSelection) : M (option CursorSelection) :=
  onCurrentWalker (fun w => walker_next w sel).

Definition findNext (sel : CursorSelection) (predicate : list Node -> bool)
  : M (option CursorSelection) :=
  ret (object_findNext sel predicate).

Definition syncToPageBeginning (reversed : bool) : M CursorSelection :=
  modify ensureNotTableMode ;;;
  onCurrentWalker (fun w => walker_syncToPageBeginning w reversed).

Definition act (sel : CursorSelection) : M bool :=
  onCurrentWalker (fun w => walker_act w sel).

Definition sync (sel : option CursorSelection) : M (option CursorSelection) :=
  onCurrentWalker (fun w => walker_sync w sel).

(** [sel.clone()] is [sel]: selections are values here.  [group] and
    [object] come from the fields [groupWalker_] and [objectWalker_], not
    from the chain. *)
Definition syncNode (sel : CursorSelection) : M (option CursorSelection) :=
  let group := walker_sync GroupWalker (Some sel) in
  let object := walker_sync ObjectWalker (Some sel) in
  let manyFocusable :=
    match group with
    | Some g => bool_decide (1 < countFocusableDescendants (start_node g))%nat
    | None => false
    end in
  if manyFocusable then
    modify (setGranularity (Num OBJECT)) ;;;
    sync object ;;;
    ret object
  else
    modify (setGranularity (Num GROUP)) ;;;
    sync group ;;;
    ret group.

Definition getDescription (prevSel sel : CursorSelection)
  : M (list NavDescription) :=
  onCurrentWalker (fun w => walker_getDescription w prevSel sel).

Definition getBraille (prevSel sel : CursorSelection) : M NavBraille :=
  onCurrentWalker (fun w => walker_getBraille w prevSel sel).

Definition getGranularityMsg : M string :=
  onCurrentWalker walker_getGranularityMsg.

(** ** Entering a table *)


Definition tryEnterTable (sel : CursorSelection) (kwargs : option TableKwargs)
  : M (option CursorSelection) :=
  fun s =>
    let kwargs := default {| force := false; fromTop := false |} kwargs in
    if isTableMode_ s then (Normal None, s)
    else
      match getContainingTable (start_node sel) with
      | Some tableNode =>
          if force kwargs || negb (isLayoutTable tableNode) then
            let s1 := ensureTableMode_ s in
            if fromTop kwargs
            then (Normal (table_move goToFirstCell (Some sel)), s1)
            else sync (Some sel) s1
          else (Normal None, s)
      | None => (Normal None, s)
      end.

(** ** Entering and leaving a math expression *)

Definition tryEnterMath (sel : CursorSelection) : M (option CursorSelection) :=
  fun s =>
    if isMathMode_ s then (Normal None, s)
    else
      match getContainingMath (start_node sel) with
      | Some _ => sync (Some sel) (ensureMathMode_ s)
      | None => (Normal None, s)
      end.

(** [do { node = directedNextLeafNode(node, rev); }
     while (node && !hasContent(node));]
    One unit of fuel pays for one turn of the loop; [None] is a walk that
    has not ended when the fuel has. *)
Fixpoint nextContentLeaf (fuel : nat) (node : Node) (rev : bool)
  : option (option Node) :=
  match fuel with
  | O => None
  | S fuel' =>
      match directedNextLeafNode node rev with
      | None => Some None
      | Some node' =>
          if hasContent node' then Some (Some node')
          else nextContentLeaf fuel' node' rev
      end
  end.

Definition tryExitMath (sel : CursorSelection) (rev : bool) (fuel : nat)
  : M (option CursorSelection) :=
  fun s =>
    let s1 := ensureNotMathMode s in
    if isInMath sel then
      match getContainingMath (start_node sel) with
      | None => (Normal None, s1)
      | Some node =>
          match nextContentLeaf fuel node rev with
          | None => (OutOfFuel, s1)
          | Some leaf =>
              match fromNode leaf with
              | Some sel' => sync (Some (setReversed rev sel')) s1
              | None => (Normal None, s1)
              end
          end
      end
    else (Normal None, s1).

(** ** Persisting the granularity

    [store] is a JavaScript object used as a map from keys to values;
    [storeOn] writes into the object it is given, which is returned here. *)

Definition storeOn (store : gmap string jsval) (s : State)
  : gmap string jsval * State :=
  let '(g, s') := getGranularity s in
  (<["granularity" := g]> store, s').

Definition readFrom (store : gmap string jsval) (s : State) : State :=
  setGranularity (default Undefined (store !! "granularity")) s.

(** ** The public operations as one step function *)

Inductive Value : Type :=
| VUndefined
| VBool (b : bool)
| VNumber (v : jsval)
| VString (t : string)
| VSelection (sel : option CursorSelection)
| VDescription (d : list NavDescription)
| VBraille (b : NavBraille)
| VStore (store : gmap string jsval).

Inductive Op : Type :=
| OStoreOn (store : gmap string jsval)
| OReadFrom (store : gmap string jsval)
| ONext (sel : CursorSelection)
| OFindNext (sel : CursorSelection) (predicate : list Node -> bool)
| OSyncToPageBeginning (reversed : bool)
| OAct (sel : CursorSelection)
| OSync (sel : CursorSelection)
| OSyncNode (sel : CursorSelection)
| OGetDescription (prevSel sel : CursorSelection)
| OGetBraille (prevSel sel : CursorSelection)
| OGetGranularityMsg
| OTableMove (m : TableMove) (sel : option CursorSelection)
| OGetHeaderText (sel : option CursorSelection)
| OGetLocationDescription (sel : CursorSelection)
| OIsInTable (sel : CursorSelection)
| OMakeMoreGranular
| OMakeLessGranular
| OSetGranularity (granularity : jsval)
| OGetGranularity
| OEnsureSubnavigating
| OEnsureNotSubnavigating
| OIsSubnavigating
| OIsTableMode
| OTryEnterTable (sel : CursorSelection) (kwargs : option TableKwargs)
| OEnsureNotTableMode
| OIsMathMode
| OCycleDomain
| OCycleTraversalMode
| OToggleExplore
| OGetDomainMsg
| OGetTraversalModeMsg
| OTryEnterMath (sel : CursorSelection)
| OTryExitMath (sel : CursorSelection) (rev : bool) (fuel : nat)
| OIsInMath (sel : CursorSelection)
| OEnsureNotMathMode.

Definition fmapM {A B : Type} (f : A -> B) (m : M A) : M B :=
  a <- m ;; ret (f a).

Definition step (op : Op) : M Value :=
  match op with
  | OStoreOn store =>
      fun s => let '(store', s') := storeOn store s in (Normal (VStore store'), s')
  | OReadFrom store => fmapM (fun _ => VUndefined) (modify (readFrom store))
  | ONext sel => fmapM VSelection (next sel)
  | OFindNext sel predicate => fmapM VSelection (findNext sel predicate)
  | OSyncToPageBeginning reversed =>
      fmapM (fun r => VSelection (Some r)) (syncToPageBeginning reversed)
  | OAct sel => fmapM VBool (act sel)
  | OSync sel => fmapM VSelection (sync (Some sel))
  | OSyncNode sel => fmapM VSelection (syncNode sel)
  | OGetDescription prevSel sel => fmapM VDescription (getDescription prevSel sel)
  | OGetBraille prevSel sel => fmapM VBraille (getBraille prevSel sel)
  | OGetGranularityMsg => fmapM VString getGranularityMsg
  | OTableMove m sel => ret (VSelection (table_move m sel))
  | OGetHeaderText sel => ret (VString (table_getHeaderText sel))
  | OGetLocationDescription sel =>
      ret (VDescription (table_getLocationDescription sel))
  | OIsInTable sel => ret (VBool (table_isInTable sel))
  | OMakeMoreGranular => fmapM (fun _ => VUndefined) (modify makeMoreGranular)
  | OMakeLessGranular => fmapM (fun _ => VUndefined) (modify makeLessGranular)
  | OSetGranularity granularity =>
      fmapM (fun _ => VUndefined) (modify (setGranularity granularity))
  | OGetGranularity =>
      fun s => let '(g, s') := getGranularity s in (Normal (VNumber g), s')
  | OEnsureSubnavigating =>
      fmapM (fun _ => VUndefined) (modify ensureSubnavigating)
  | OEnsureNotSubnavigating =>
      fmapM (fun _ => VUndefined) (modify ensureNotSubnavigating)
  | OIsSubnavigating => fun s => (Normal (VBool (isSubnavigating s)), s)
  | OIsTableMode => fun s => (Normal (VBool (isTableMode s)), s)
  | OTryEnterTable sel kwargs => fmapM VSelection (tryEnterTable sel kwargs)
  | OEnsureNotTableMode =>
      fmapM (fun _ => VUndefined) (modify ensureNotTableMode)
  | OIsMathMode => fun s => (Normal (VBool (isMathMode s)), s)
  | OCycleDomain => fmapM (fun _ => VUndefined) (modify cycleDomain)
  | OCycleTraversalMode =>
      fmapM (fun _ => VUndefined) (modify cycleTraversalMode)
  | OToggleExplore => fmapM (fun _ => VUndefined) (modify toggleExplore)
  | OGetDomainMsg => fun s => (Normal (VString (getDomainMsg s)), s)
  | OGetTraversalModeMsg =>
      fun s => (Normal (VString (getTraversalModeMsg s)), s)
  | OTryEnterMath sel => fmapM VSelection (tryEnterMath sel)
  | OTryExitMath sel rev fuel => fmapM VSelection (tryExitMath sel rev fuel)
  | OIsInMath sel => ret (VBool (isInMath sel))
  | OEnsureNotMathMode =>
      fmapM (fun _ => VUndefined) (modify ensureNotMathMode)
  end.

(** The state after a sequence of calls.  A call that throws leaves the
    fields as they were at the throw and the caller may go on; a walk that
    runs out of fuel is treated the same way, which only adds states. *)
Definition run (ops : list Op) (s : State) : State :=
  foldl (fun s op => (step op s).2) s ops.

(** ** What a caller can see

    The four queries, the walker that [next], [sync], [act],
    [getDescription], [getBraille] and [getGranularityMsg] are forwarded to,
    and the state of the math walker behind the math forwarders.  The
    targets of the other forwarders ([objectWalker_], [tableWalker_]) are
    fixed. *)
Record Observation : Type := {
  seen_isTableMode : bool;
  seen_isMathMode : bool;
  seen_getGranularity : jsval;
  seen_isSubnavigating : bool;
  seen_currentWalker : option Walker;
  seen_mathWalker : MathState
}.

Definition observe (s : State) : Observation :=
  {| seen_isTableMode := isTableMode s;
     seen_isMathMode := isMathMode s;
     seen_getGranularity := (getGranularity s).1;
     seen_isSubnavigating := isSubnavigating s;
     seen_currentWalker := currentWalker_ s;
     seen_mathWalker := mathWalker_ s |}.

(** ** The shape of every state the operations produce

    The chain keeps its seven entries, only the GROUP slot varies, a table
    or math walker sits there only under its flag, and [currentWalker_] is
    the chain read at the current index. *)
Definition chain (g : Walker) : list Walker :=
  [CharacterWalker; WordWalker; LineWalker; SentenceWalker;
   ObjectWalker; g; VisualWalker].

Definition slot_agrees (s : State) (g : Walker) : Prop :=
  match g with
  | GroupWalker => True
  | TableWalker => isTableMode_ s = true
  | MathWalker => isMathMode_ s = true
  | _ => False
  end.

Definition wf (s : State) : Prop :=
  (exists g, walkers_ s = chain g /\ slot_agrees s g) /\
  currentWalker_ s = array_get (walkers_ s) (currentWalkerIndex_ s).

(** ** The leaf walk of [tryExitMath], as a relation

    [leafWalk rev n r]: stepping leaf by leaf from [n] in direction [rev],
    the first content-bearing leaf met is [r]; [r] is [None] when the
    leaves end before one is met. *)
Inductive leafWalk (rev : bool) : Node -> option Node -> Prop :=
| walk_end n :
    directedNextLeafNode n rev = None -> leafWalk rev n None
| walk_found n leaf :
    directedNextLeafNode n rev = Some leaf -> hasContent leaf = true ->
    leafWalk rev n (Some leaf)
| walk_skip n n' r :
    directedNextLeafNode n rev = Some n' -> hasContent n' = false ->
    leafWalk rev n' r -> leafWalk rev n r.

(** The math walker's sub-mode commands. *)
Inductive SubMode : Type := SCycleDomain | SCycleTraversalMode | SToggleExplore.

Definition subMode (c : SubMode) : State -> State :=
  match c with
  | SCycleDomain => cycleDomain
  | SCycleTraversalMode => cycleTraversalMode
  | SToggleExplore => toggleExplore
  end.

Definition math_subMode (c : SubMode) : MathState -> MathState :=
  match c with
  | SCycleDomain => math_cycleDomain
  | SCycleTraversalMode => math_cycleTraversalMode
  | SToggleExplore => math_toggleExplore
  end.

(** ** Ranks

    A rank is one of the seven values of [GRANULARITIES]; an operation is
    rank safe when the granularity it hands the shifter, as an argument or
    in a store, is a rank. *)
Definition is_rank (v : jsval) : bool :=
  match v with
  | Num z => (0 <=? z) && (z <=? 6)
  | _ => false
  end.

Definition rank_safe (op : Op) : bool :=
  match op with
  | OSetGranularity granularity => is_rank granularity
  | OReadFrom store => is_rank (default Undefined (store !! "granularity"))
  | _ => true
  end.

(** The index is a rank, and below VISUAL while subnavigating. *)
Definition ranked (s : State) : Prop :=
  exists r, currentWalkerIndex_ s = Num r /\ 0 <= r <= 6 /\
    (if isSubnavigating_ s then r <= 5 else True).

(** [makeMoreGranular] ([true]) and [makeLessGranular] ([false]) in a row. *)
Definition shifts (bs : list bool) (s : State) : State :=
  foldl (fun (s : State) (b : bool) =>
           if b then makeMoreGranular s else makeLessGranular s) s bs.

End Shifter.

(** ** A sample page

    A concrete document and concrete walkers, to run the shifter on.

    Nodes, in document order: 0 a paragraph; 1 a data table with a cell 2
    and a caption 3; 4 a layout table with its cell 5; 6 a math expression
    with its leaf 7; 8 an empty text node; 9 and 10 paragraphs.  The table
    walker syncs to cells only. *)
Module SamplePage.

Definition inDataTable (n : nat) : bool := (1 <=? n)%nat && (n <=? 3)%nat.
Definition inLayoutTable (n : nat) : bool := (4 <=? n)%nat && (n <=? 5)%nat.
Definition inMath (n : nat) : bool := (6 <=? n)%nat && (n <=? 7)%nat.

Definition nextLeaf (n : nat) (rev : bool) : option nat :=
  if rev then
    match n with O => None | S m => Some m end
  else if (n =? 6)%nat then Some 8%nat
  else if (n <? 10)%nat then Some (S n) else None.

Definition tableCell (sel : option (nat * bool)) : option (nat * bool) :=
  match sel with
  | Some (n, r) => if inDataTable n || inLayoutTable n then
                     Some (if inDataTable n then 2%nat else 5%nat, r)
                   else None
  | None => None
  end.

Definition syncTo (w : Walker) (sel : option (nat * bool)) : option (nat * bool) :=
  match w, sel with
  | TableWalker, Some (n, r) =>
      if ((n =? 2) || (n =? 5))%nat then Some (n, r) else None
  | _, _ => sel
  end.

Record Math : Type :=
  { domain : nat; traversal : nat; explore : bool; saved : jsval }.

#[local] Instance page : Collaborators := {|
  Node := nat;
  CursorSelection := nat * bool;
  MathState := Math;
  NavDescription := string;
  NavBraille := string;
  start_node := fst;
  setReversed := fun rev sel => (sel.1, rev);
  selectionAt := fun n => (n, false);
  getContainingTable := fun n =>
    if inDataTable n then Some 1%nat
    else if inLayoutTable n then Some 4%nat else None;
  isLayoutTable := fun n => (n =? 4)%nat;
  getContainingMath := fun n => if inMath n then Some 6%nat else None;
  directedNextLeafNode := nextLeaf;
  hasContent := fun n => negb (n =? 8)%nat;
  countFocusableDescendants := fun _ => 0%nat;
  walker_next := fun _ sel => Some sel;
  walker_sync := syncTo;
  walker_act := fun _ _ => false;
  walker_syncToPageBeginning := fun _ rev => (if rev then 10%nat else 0%nat, rev);
  walker_getDescription := fun _ _ _ => [];
  walker_getBraille := fun _ _ _ => "";
  walker_getGranularityMsg := fun _ => "";
  object_findNext := fun _ _ => None;
  table_move := fun _ sel => tableCell sel;
  table_getHeaderText := fun _ => "";
  table_getLocationDescription := fun _ => [];
  table_isInTable := fun sel => inDataTable sel.1 || inLayoutTable sel.1;
  math_new := {| domain := 0; traversal := 0; explore := false; saved := Undefined |};
  math_reset := fun m =>
    {| domain := 0; traversal := 0; explore := false; saved := saved m |};
  math_cycleDomain := fun m =>
    {| domain := S (domain m); traversal := traversal m;
       explore := explore m; saved := saved m |};
  math_cycleTraversalMode := fun m =>
    {| domain := domain m; traversal := S (traversal m);
       explore := explore m; saved := saved m |};
  math_toggleExplore := fun m =>
    {| domain := domain m; traversal := traversal m;
       explore := negb (explore m); saved := saved m |};
  math_setSavedGranularity := fun g m =>
    {| domain := domain m; traversal := traversal m;
       explore := explore m; saved := g |};
  math_getDomainMsg := fun _ => "";
  math_getTraversalModeMsg := fun _ => "";
  math_isInMath := fun sel => inMath sel.1
|}.

(** Selections used below. *)
Definition atParagraph : @CursorSelection page := (0%nat, false).
Definition atCell : @CursorSelection page := (2%nat, false).
Definition atCaption : @CursorSelection page := (3%nat, false).
Definition atLayoutCell : @CursorSelection page := (5%nat, false).
Definition atMathLeaf : @CursorSelection page := (7%nat, false).

End SamplePage.

(** * Properties *)

Section ShifterFacts.
Context `{C : Collaborators}.

(** ** Subnavigation and granularity *)

(** [ensureNotSubnavigating] as the source writes it: clear the flag, then
    call [makeLessGranular]. *)
Lemma ensureNotSubnavigating_unfold (s : State) :
  ensureNotSubnavigating s =
  if isSubnavigating_ s then makeLessGranular (set_isSubnavigating false s)
  else s.
Proof.
  unfold makeLessGranular, ensureNotSubnavigating.
  destruct (isSubnavigating_ s) eqn:E; reflexivity.
Qed.

Lemma ensureNotSubnavigating_clears (s : State) :
  isSubnavigating_ (ensureNotSubnavigating s) = false.
Proof.
  unfold ensureNotSubnavigating.
  destruct (isSubnavigating_ s) eqn:E; [reflexivity | exact E].
Qed.

Lemma ensureNotSubnavigating_idem (s : State) :
  ensureNotSubnavigating (ensureNotSubnavigating s) = ensureNotSubnavigating s.
Proof.
  unfold ensureNotSubnavigating at 1.
  now rewrite ensureNotSubnavigating_clears.
Qed.

Lemma ensureNotSubnavigating_off (s : State) :
  isSubnavigating_ s = false -> ensureNotSubnavigating s = s.
Proof. intros E. unfold ensureNotSubnavigating. now rewrite E. Qed.

Lemma getGranularity_off (s : State) :
  isSubnavigating_ s = false ->
  getGranularity s = (currentWalkerIndex_ s, s).
Proof.
  intros E. unfold getGranularity, isSubnavigating.
  now rewrite (ensureNotSubnavigating_off s E), E.
Qed.

(** ** The chain read at an index *)

Lemma array_get_chain_other (g g' : Walker) (z : Z) :
  z <> GROUP -> array_get (chain g) (Num z) = array_get (chain g') (Num z).
Proof.
  intros Hz. unfold array_get, GROUP in *.
  destruct (0 <=? z) eqn:E; [| reflexivity].
  apply Z.leb_le in E.
  destruct (Z.to_nat z) as [|[|[|[|[|[|n]]]]]] eqn:En; try reflexivity.
  exfalso. apply Hz. lia.
Qed.

Lemma array_get_chain_group (g : Walker) :
  array_get (chain g) (Num GROUP) = Some g.
Proof. reflexivity. Qed.

Lemma array_get_chain_special (g : Walker) (v : jsval) (w : Walker) :
  array_get (chain g) v = Some w ->
  w = TableWalker \/ w = MathWalker ->
  v = Num GROUP /\ w = g.
Proof.
  destruct v as [z| |]; simpl; try discriminate.
  destruct (0 <=? z) eqn:E; [| discriminate].
  apply Z.leb_le in E.
  destruct (Z.to_nat z) as [|[|[|[|[|[|[|n]]]]]]] eqn:En; simpl;
    try discriminate; intros [= <-] [?|?]; try discriminate.
  all: split; [f_equal; unfold GROUP; lia | reflexivity].
Qed.

(** ** Every operation keeps the state well formed *)

Ltac wf_open H s :=
  destruct s as [sub tm mm mw ws idx cur];
  destruct H as [(g & Hws & Hg) Hcur];
  simpl in Hws, Hg, Hcur; subst.

Lemma wf_reset_ : wf reset_.
Proof. split; [exists GroupWalker; split; [reflexivity | exact I] | reflexivity]. Qed.

Lemma wf_walkers_length (s : State) : wf s -> length (walkers_ s) = 7%nat.
Proof. intros [(g & -> & _) _]. reflexivity. Qed.

Lemma wf_ensureNotSubnavigating (s : State) :
  wf s -> wf (ensureNotSubnavigating s).
Proof.
  intros H. wf_open H s.
  destruct sub; (split; [exists g; split; [reflexivity | exact Hg] | reflexivity]).
Qed.

Lemma wf_shift (f : State -> jsval) (s : State) :
  wf s -> wf (refreshCurrentWalker (set_currentWalkerIndex (f s) s)).
Proof.
  intros H. wf_open H s.
  split; [exists g; split; [reflexivity | exact Hg] | reflexivity].
Qed.

Lemma wf_makeLessGranular (s : State) : wf s -> wf (makeLessGranular s).
Proof.
  intros H. apply wf_ensureNotSubnavigating in H.
  exact (wf_shift
           (fun s => Math_min (js_succ (currentWalkerIndex_ s))
                              (Num (Z.of_nat (length (walkers_ s)) - 1))) _ H).
Qed.

Lemma wf_makeMoreGranular (s : State) : wf s -> wf (makeMoreGranular s).
Proof.
  intros H. apply wf_ensureNotSubnavigating in H.
  exact (wf_shift
           (fun s => Math_max (js_pred (currentWalkerIndex_ s)) (Num 0)) _ H).
Qed.

Lemma wf_setGranularity (g : jsval) (s : State) : wf s -> wf (setGranularity g s).
Proof.
  intros H. apply wf_ensureNotSubnavigating in H.
  exact (wf_shift (fun _ => g) _ H).
Qed.

Lemma wf_set_isSubnavigating (b : bool) (s : State) :
  wf s -> wf (set_isSubnavigating b s).
Proof.
  intros H. wf_open H s.
  split; [exists g; split; [reflexivity | exact Hg] | reflexivity].
Qed.

Lemma wf_ensureSubnavigating (s : State) : wf s -> wf (ensureSubnavigating s).
Proof.
  intros H. unfold ensureSubnavigating.
  destruct (isSubnavigating_ s); [exact H |].
  now apply wf_set_isSubnavigating, wf_makeMoreGranular.
Qed.

Lemma wf_getGranularity (s : State) : wf s -> wf (getGranularity s).2.
Proof.
  intros H. unfold getGranularity. cbn [snd].
  destruct (isSubnavigating s).
  - now apply wf_ensureSubnavigating, wf_ensureNotSubnavigating.
  - now apply wf_ensureNotSubnavigating.
Qed.

Lemma wf_ensureTableMode_ (s : State) : wf s -> wf (ensureTableMode_ s).
Proof.
  intros H. wf_open H s.
  split; [exists TableWalker; split; reflexivity | reflexivity].
Qed.

Lemma wf_ensureNotTableMode (s : State) : wf s -> wf (ensureNotTableMode s).
Proof.
  intros H. wf_open H s.
  split; [exists GroupWalker; split; [reflexivity | exact I] | reflexivity].
Qed.

Lemma wf_ensureMathMode_ (s : State) : wf s -> wf (ensureMathMode_ s).
Proof.
  intros H. wf_open H s.
  split; [exists MathWalker; split; reflexivity | reflexivity].
Qed.

Lemma wf_ensureNotMathMode (s : State) : wf s -> wf (ensureNotMathMode s).
Proof.
  intros H. wf_open H s.
  split; [exists GroupWalker; split; [reflexivity | exact I] | reflexivity].
Qed.

Lemma wf_set_mathWalker (m : MathState) (s : State) :
  wf s -> wf (set_mathWalker m s).
Proof.
  intros H. wf_open H s.
  split; [exists g; split; [reflexivity | exact Hg] | reflexivity].
Qed.

Create HintDb shifter_wf discriminated.
#[local] Hint Resolve wf_ensureNotSubnavigating wf_makeLessGranular
  wf_makeMoreGranular wf_setGranularity wf_ensureSubnavigating
  wf_getGranularity wf_ensureTableMode_ wf_ensureNotTableMode
  wf_ensureMathMode_ wf_ensureNotMathMode : shifter_wf.

Lemma onCurrentWalker_state {A : Type} (f : Walker -> A) (s : State) :
  (onCurrentWalker f s).2 = s.
Proof. unfold onCurrentWalker. now destruct (currentWalker_ s). Qed.

Lemma sync_state (sel : option CursorSelection) (s : State) : (sync sel s).2 = s.
Proof. apply onCurrentWalker_state. Qed.

Lemma fmapM_state {A B : Type} (f : A -> B) (m : M A) (s : State) :
  (fmapM f m s).2 = (m s).2.
Proof. unfold fmapM, bind, ret. now destruct (m s) as [[a| |] s']. Qed.

Lemma tryEnterTable_state (sel : CursorSelection) (kwargs : option TableKwargs)
    (s : State) :
  (tryEnterTable sel kwargs s).2 = s \/
  (tryEnterTable sel kwargs s).2 = ensureTableMode_ s.
Proof.
  unfold tryEnterTable.
  destruct (isTableMode_ s); [now left |].
  destruct (getContainingTable (start_node sel)); [| now left].
  destruct (_ || _); [| now left].
  destruct (fromTop _); [now right |].
  right. apply sync_state.
Qed.

Lemma tryEnterMath_state (sel : CursorSelection) (s : State) :
  (tryEnterMath sel s).2 = s \/ (tryEnterMath sel s).2 = ensureMathMode_ s.
Proof.
  unfold tryEnterMath.
  destruct (isMathMode_ s); [now left |].
  destruct (getContainingMath (start_node sel)); [| now left].
  right. apply sync_state.
Qed.

Lemma tryExitMath_state (sel : CursorSelection) (rev : bool) (fuel : nat)
    (s : State) :
  (tryExitMath sel rev fuel s).2 = ensureNotMathMode s.
Proof.
  unfold tryExitMath.
  destruct (isInMath sel); [| reflexivity].
  destruct (getContainingMath (start_node sel)); [| reflexivity].
  destruct (nextContentLeaf fuel n rev) as [leaf|]; [| reflexivity].
  destruct (fromNode leaf); [apply sync_state | reflexivity].
Qed.

Lemma syncNode_state (sel : CursorSelection) (s : State) :
  (syncNode sel s).2 = setGranularity (Num OBJECT) s \/
  (syncNode sel s).2 = setGranularity (Num GROUP) s.
Proof.
  unfold syncNode.
  match goal with |- context [if ?b then _ else _] => destruct b end;
    [left | right]; unfold bind, modify, ret, sync, onCurrentWalker;
    match goal with |- context [currentWalker_ ?x] =>
      destruct (currentWalker_ x) end; reflexivity.
Qed.

Lemma syncToPageBeginning_state (reversed : bool) (s : State) :
  (syncToPageBeginning reversed s).2 = ensureNotTableMode s.
Proof.
  unfold syncToPageBeginning, bind, modify.
  apply onCurrentWalker_state.
Qed.

Lemma wf_step (op : Op) (s : State) : wf s -> wf (step op s).2.
Proof.
  intros H. destruct op; cbn [step]; rewrite ?fmapM_state;
    unfold modify, ret, next, act, getDescription, getBraille,
      getGranularityMsg, findNext, readFrom;
    rewrite ?onCurrentWalker_state, ?sync_state, ?syncToPageBeginning_state,
      ?tryExitMath_state;
    cbn [snd]; try exact H; auto with shifter_wf.
  - unfold storeOn. pose proof (wf_getGranularity s H) as Hg.
    destruct (getGranularity s); exact Hg.
  - destruct (syncNode_state sel s) as [-> | ->]; auto with shifter_wf.
  - pose proof (wf_getGranularity s H) as Hg.
    destruct (getGranularity s); exact Hg.
  - destruct (tryEnterTable_state sel kwargs s) as [-> | ->];
      auto with shifter_wf.
  - destruct (tryEnterMath_state sel s) as [-> | ->]; auto with shifter_wf.
Qed.

Lemma wf_run (ops : list Op) (s : State) : wf s -> wf (run ops s).
Proof.
  revert s. induction ops as [| op ops IH]; intros s H; [exact H |].
  apply IH, wf_step, H.
Qed.

Lemma wf_reachable (ops : list Op) : wf (run ops reset_).
Proof. apply wf_run, wf_reset_. Qed.

(** ** Table mode and math mode exclude each other *)

(** Both queries compare [currentWalker_] with a walker, and the table
    walker is not the math walker. *)
Lemma modes_exclusive (s : State) : isTableMode s && isMathMode s = false.
Proof.
  unfold isTableMode, isMathMode.
  destruct (isTableMode_ s), (isMathMode_ s); cbn; try reflexivity.
  - repeat case_bool_decide; try reflexivity; congruence.
  - apply andb_false_r.
Qed.

(** C1: after any finite sequence of public operations on a freshly reset
    shifter, [isTableMode()] and [isMathMode()] are not both true. *)
Theorem table_and_math_mode_never_both (ops : list Op) :
  isTableMode (run ops reset_) && isMathMode (run ops reset_) = false.
Proof. apply modes_exclusive. Qed.

(** ** Granularity shifts cancel subnavigation *)

Lemma setGranularity_after_exit (g : jsval) (s : State) :
  setGranularity g s = setGranularity g (ensureNotSubnavigating s).
Proof. unfold setGranularity. now rewrite ensureNotSubnavigating_idem. Qed.

Lemma makeMoreGranular_after_exit (s : State) :
  makeMoreGranular s = makeMoreGranular (ensureNotSubnavigating s).
Proof. unfold makeMoreGranular. now rewrite ensureNotSubnavigating_idem. Qed.

Lemma makeLessGranular_after_exit (s : State) :
  makeLessGranular s = makeLessGranular (ensureNotSubnavigating s).
Proof. unfold makeLessGranular. now rewrite ensureNotSubnavigating_idem. Qed.

(** C8: [setGranularity], [makeMoreGranular] and [makeLessGranular] first
    leave subnavigation: each acts as it does on the state that
    [ensureNotSubnavigating] gives, and [isSubnavigating()] is false when it
    returns, whatever the state and the argument. *)
Theorem granularity_shift_cancels_subnavigation (s : State) (g : jsval) :
  (setGranularity g s = setGranularity g (ensureNotSubnavigating s) /\
   isSubnavigating (setGranularity g s) = false) /\
  (makeMoreGranular s = makeMoreGranular (ensureNotSubnavigating s) /\
   isSubnavigating (makeMoreGranular s) = false) /\
  (makeLessGranular s = makeLessGranular (ensureNotSubnavigating s) /\
   isSubnavigating (makeLessGranular s) = false).
Proof.
  repeat split.
  - apply setGranularity_after_exit.
  - apply (ensureNotSubnavigating_clears s).
  - apply makeMoreGranular_after_exit.
  - apply (ensureNotSubnavigating_clears s).
  - apply makeLessGranular_after_exit.
  - apply (ensureNotSubnavigating_clears s).
Qed.

(** ** Entering and leaving subnavigation *)

(** Away from CHARACTER the pair [ensureSubnavigating],
    [ensureNotSubnavigating] gives the state back. *)
Lemma subnavigation_round_trip (s : State) (r : Z) :
  wf s -> isSubnavigating_ s = false -> currentWalkerIndex_ s = Num r ->
  1 <= r <= 6 ->
  ensureNotSubnavigating (ensureSubnavigating s) = s.
Proof.
  intros H Hsub Hidx Hr. wf_open H s. simpl in Hsub, Hidx. subst.
  unfold ensureSubnavigating, makeMoreGranular, ensureNotSubnavigating,
    shiftLess, refreshCurrentWalker. cbn.
  replace (Z.min (Z.max (r - 1) 0 + 1) (Z.of_nat 7 - 1)) with r by lia.
  reflexivity.
Qed.

(** While subnavigating below a rank in 1..6, [getGranularity] reports that
    rank and leaves the state as it found it. *)
Lemma getGranularity_while_subnavigating (s : State) (r : Z) :
  wf s -> isSubnavigating_ s = false -> currentWalkerIndex_ s = Num r ->
  1 <= r <= 6 ->
  getGranularity (ensureSubnavigating s) = (Num r, ensureSubnavigating s).
Proof.
  intros H Hsub Hidx Hr.
  unfold getGranularity.
  rewrite (subnavigation_round_trip s r H Hsub Hidx Hr).
  replace (isSubnavigating (ensureSubnavigating s)) with true.
  - now rewrite Hidx.
  - unfold isSubnavigating, ensureSubnavigating. now rewrite Hsub.
Qed.

(** C2: at CHARACTER the round trip does not come back: after
    [ensureSubnavigating(); ensureNotSubnavigating()] on a shifter that was
    at rank 0 and not subnavigating, [getGranularity()] reports WORD. *)
Theorem subnavigation_round_trip_at_CHARACTER (ops : list Op) :
  isSubnavigating_ (run ops reset_) = false ->
  currentWalkerIndex_ (run ops reset_) = Num CHARACTER ->
  (getGranularity
     (ensureNotSubnavigating (ensureSubnavigating (run ops reset_)))).1
  = Num WORD.
Proof.
  intros Hsub Hidx. pose proof (wf_reachable ops) as H.
  destruct (run ops reset_) as [sub tm mm mw ws idx cur].
  destruct H as [(g & Hws & Hg) Hcur]. simpl in *. subst.
  reflexivity.
Qed.

(** C4: while subnavigating from the baseline CHARACTER, [getGranularity()]
    reports WORD, not the baseline. *)
Theorem getGranularity_subnavigating_at_CHARACTER (ops : list Op) :
  isSubnavigating_ (run ops reset_) = false ->
  currentWalkerIndex_ (run ops reset_) = Num CHARACTER ->
  (getGranularity (ensureSubnavigating (run ops reset_))).1 = Num WORD.
Proof.
  intros Hsub Hidx. pose proof (wf_reachable ops) as H.
  destruct (run ops reset_) as [sub tm mm mw ws idx cur].
  destruct H as [(g & Hws & Hg) Hcur]. simpl in *. subst.
  reflexivity.
Qed.

(** ** Leaving table mode when it is not on *)

Lemma array_get_chain_swap (g g' : Walker) (v : jsval) :
  array_get (chain g) v <> Some g ->
  array_get (chain g) v = array_get (chain g') v.
Proof.
  intros Hne. destruct v as [z| |]; try reflexivity.
  destruct (decide (z = GROUP)) as [-> | Hz].
  - now rewrite array_get_chain_group in Hne.
  - now apply array_get_chain_other.
Qed.

(** Outside both modes the current walker is the one an untouched chain
    holds at the current index. *)
Lemma current_walker_outside_modes (s : State) :
  wf s -> isTableMode s = false -> isMathMode s = false ->
  array_get (chain GroupWalker) (currentWalkerIndex_ s) = currentWalker_ s.
Proof.
  intros H Ht Hm. wf_open H s.
  unfold isTableMode, isMathMode in Ht, Hm. simpl in Ht, Hm |- *.
  destruct g; simpl in Hg; try contradiction; subst; [reflexivity | |];
    symmetry; apply array_get_chain_swap; intros Heq; rewrite Heq in Ht, Hm.
  - rewrite bool_decide_eq_true_2 in Ht by reflexivity. discriminate.
  - rewrite bool_decide_eq_true_2 in Hm by reflexivity. discriminate.
Qed.

Lemma getGranularity_result (s : State) :
  (getGranularity s).1 = currentWalkerIndex_ (ensureNotSubnavigating s).
Proof. reflexivity. Qed.

(** With both flags clear the chain is untouched and [ensureNotTableMode]
    assigns every field the value it has. *)
Lemma ensureNotTableMode_flags_clear (s : State) :
  wf s -> isTableMode_ s = false -> isMathMode_ s = false ->
  ensureNotTableMode s = s.
Proof.
  intros H Ht Hm. wf_open H s. simpl in Ht, Hm. subst.
  destruct g; simpl in Hg; try contradiction; try discriminate.
  reflexivity.
Qed.

(** C3, as the code has it: where neither [isTableMode()] nor
    [isMathMode()] holds, [ensureNotTableMode()] changes none of the four
    queries, not the walker the calls are forwarded to, and not the math
    walker; where the table flag and the math flag are both clear it
    changes no field at all. *)
Theorem ensureNotTableMode_outside_modes (ops : list Op) :
  (isTableMode (run ops reset_) = false ->
   isMathMode (run ops reset_) = false ->
   observe (ensureNotTableMode (run ops reset_)) = observe (run ops reset_)) /\
  (isTableMode_ (run ops reset_) = false ->
   isMathMode_ (run ops reset_) = false ->
   ensureNotTableMode (run ops reset_) = run ops reset_).
Proof.
  pose proof (wf_reachable ops) as H. split;
    [| now apply ensureNotTableMode_flags_clear].
  intros Ht Hm.
  pose proof (current_walker_outside_modes _ H Ht Hm) as Hcur.
  set (s := run ops reset_) in *.
  assert (Hcur' : currentWalker_ (ensureNotTableMode s) = currentWalker_ s).
  { rewrite <- Hcur. destruct H as [(g & Hws & _) _].
    unfold ensureNotTableMode, refreshCurrentWalker, set_group_slot. cbn.
    now rewrite Hws. }
  unfold observe. f_equal.
  - rewrite Ht. reflexivity.
  - unfold isMathMode in *. now rewrite Hcur'.
  - rewrite !getGranularity_result.
    destruct H as [(g & Hws & _) _].
    unfold ensureNotSubnavigating, shiftLess, ensureNotTableMode,
      refreshCurrentWalker, set_group_slot. cbn.
    rewrite Hws. destruct (isSubnavigating_ s); reflexivity.
  - exact Hcur'.
Qed.

(** ** Entering a table *)

Lemma setGranularity_fields (g : jsval) (s : State) :
  isTableMode_ (setGranularity g s) = isTableMode_ s /\
  isMathMode_ (setGranularity g s) = isMathMode_ s /\
  mathWalker_ (setGranularity g s) = mathWalker_ s /\
  walkers_ (setGranularity g s) = walkers_ s /\
  currentWalkerIndex_ (setGranularity g s) = g /\
  currentWalker_ (setGranularity g s) = array_get (walkers_ s) g /\
  isSubnavigating_ (setGranularity g s) = false.
Proof.
  unfold setGranularity, ensureNotSubnavigating.
  destruct (isSubnavigating_ s) eqn:E; repeat split. exact E.
Qed.

Lemma ensureTableMode__enters (s : State) :
  wf s ->
  isTableMode_ (ensureTableMode_ s) = true /\
  walkers_ (ensureTableMode_ s) = chain TableWalker /\
  currentWalkerIndex_ (ensureTableMode_ s) = Num GROUP /\
  currentWalker_ (ensureTableMode_ s) = Some TableWalker /\
  isSubnavigating_ (ensureTableMode_ s) = isSubnavigating_ s.
Proof. intros H. wf_open H s. repeat split. Qed.

Lemma tryEnterTable_enters (sel : CursorSelection) (kwargs : option TableKwargs)
    (s : State) (t : Node) :
  wf s -> isTableMode_ s = false ->
  getContainingTable (start_node sel) = Some t ->
  force (default {| force := false; fromTop := false |} kwargs)
    || negb (isLayoutTable t) = true ->
  tryEnterTable sel kwargs s =
  (Normal (if fromTop (default {| force := false; fromTop := false |} kwargs)
           then table_move goToFirstCell (Some sel)
           else walker_sync TableWalker (Some sel)),
   ensureTableMode_ s).
Proof.
  intros H Hflag Ht Hok. unfold tryEnterTable.
  rewrite Hflag, Ht, Hok.
  destruct (fromTop _); [reflexivity |].
  unfold sync, onCurrentWalker.
  destruct (ensureTableMode__enters s H) as (_ & _ & _ & -> & _).
  reflexivity.
Qed.

Lemma tryEnterTable_returned (sel : CursorSelection)
    (kwargs : option TableKwargs) (s : State) (r : CursorSelection) :
  (tryEnterTable sel kwargs s).1 = Normal (Some r) ->
  isTableMode_ s = false /\ (tryEnterTable sel kwargs s).2 = ensureTableMode_ s.
Proof.
  unfold tryEnterTable.
  destruct (isTableMode_ s); [discriminate |].
  destruct (getContainingTable (start_node sel)); [| discriminate].
  destruct (_ || _); [| discriminate].
  destruct (fromTop _); [now split |].
  intros _. split; [reflexivity | apply sync_state].
Qed.

(** What [tryEnterTable] does with the table flag clear: a selection in no
    table gives null and leaves the state alone; a selection in a table
    that is not a layout table, or in any table under [force], sets table
    mode and returns what the table walker's [goToFirstCell] (under
    [fromTop]) or [sync] gives for it; [isTableMode()] holds afterwards, and
    [getGranularity()] reports GROUP if the shifter was not
    subnavigating. *)
Lemma tryEnterTable_outcome (ops : list Op) (sel : CursorSelection)
    (kwargs : option TableKwargs) :
  isTableMode_ (run ops reset_) = false ->
  (getContainingTable (start_node sel) = None ->
   tryEnterTable sel kwargs (run ops reset_) = (Normal None, run ops reset_) /\
   isTableMode (run ops reset_) = false) /\
  (forall t : Node,
     getContainingTable (start_node sel) = Some t ->
     force (default {| force := false; fromTop := false |} kwargs)
       || negb (isLayoutTable t) = true ->
     (tryEnterTable sel kwargs (run ops reset_)).1 =
       Normal (if fromTop (default {| force := false; fromTop := false |} kwargs)
               then table_move goToFirstCell (Some sel)
               else walker_sync TableWalker (Some sel)) /\
     isTableMode (tryEnterTable sel kwargs (run ops reset_)).2 = true /\
     (isSubnavigating (run ops reset_) = false ->
      (getGranularity (tryEnterTable sel kwargs (run ops reset_)).2).1
      = Num GROUP)).
Proof.
  intros Hflag. pose proof (wf_reachable ops) as H.
  set (s := run ops reset_) in *. split.
  - intros Hnone. split.
    + unfold tryEnterTable. now rewrite Hflag, Hnone.
    + unfold isTableMode. now rewrite Hflag.
  - intros t Ht Hok.
    rewrite (tryEnterTable_enters sel kwargs s t H Hflag Ht Hok). cbn [fst snd].
    destruct (ensureTableMode__enters s H) as (Hf & _ & Hi & Hc & Hs).
    split; [reflexivity |]. split.
    + unfold isTableMode. rewrite Hf, Hc. reflexivity.
    + intros Hsub. rewrite getGranularity_off; [exact Hi |].
      rewrite Hs. exact Hsub.
Qed.

(** C5: entered while subnavigating, a table does not make
    [getGranularity()] report GROUP.  [ensureTableMode_] sets the index to
    GROUP but, unlike [setGranularity], [makeMoreGranular] and
    [makeLessGranular], does not leave subnavigation first: the flag stays
    set, [isTableMode()] holds, and [getGranularity()], which steps out of
    subnavigation to read the index, reports VISUAL. *)
Theorem tryEnterTable_while_subnavigating (ops : list Op)
    (sel : CursorSelection) (kwargs : option TableKwargs) (t : Node) :
  isTableMode_ (run ops reset_) = false ->
  isSubnavigating (run ops reset_) = true ->
  getContainingTable (start_node sel) = Some t ->
  force (default {| force := false; fromTop := false |} kwargs)
    || negb (isLayoutTable t) = true ->
  isTableMode (tryEnterTable sel kwargs (run ops reset_)).2 = true /\
  isSubnavigating (tryEnterTable sel kwargs (run ops reset_)).2 = true /\
  currentWalkerIndex_ (tryEnterTable sel kwargs (run ops reset_)).2
    = Num GROUP /\
  (getGranularity (tryEnterTable sel kwargs (run ops reset_)).2).1
    = Num VISUAL.
Proof.
  intros Hflag Hsub Ht Hok. pose proof (wf_reachable ops) as H.
  set (s := run ops reset_) in *. unfold isSubnavigating in *.
  rewrite (tryEnterTable_enters sel kwargs s t H Hflag Ht Hok). cbn [snd].
  destruct (ensureTableMode__enters s H) as (Hf & _ & Hi & Hc & Hs).
  split; [unfold isTableMode; now rewrite Hf, Hc |].
  split; [now rewrite Hs |]. split; [exact Hi |].
  wf_open H s. simpl in Hsub. subst. reflexivity.
Qed.

(** ** A table flag that outlives table mode *)

(** C9: after [tryEnterTable] has returned a selection, [setGranularity] to
    anything but GROUP makes [isTableMode()] false; yet [tryEnterTable]
    still returns null and changes nothing, the GROUP slot still holds the
    table walker, and [setGranularity(GROUP)] alone brings [isTableMode()]
    and the table walker back. *)
Theorem stale_table_flag (ops : list Op) (sel r : CursorSelection)
    (kwargs : option TableKwargs) (g : jsval) :
  (tryEnterTable sel kwargs (run ops reset_)).1 = Normal (Some r) ->
  g <> Num GROUP ->
  let s2 := setGranularity g (tryEnterTable sel kwargs (run ops reset_)).2 in
  isTableMode s2 = false /\
  (forall sel' kwargs', tryEnterTable sel' kwargs' s2 = (Normal None, s2)) /\
  walkers_ s2 !! Z.to_nat GROUP = Some TableWalker /\
  isTableMode (setGranularity (Num GROUP) s2) = true /\
  currentWalker_ (setGranularity (Num GROUP) s2) = Some TableWalker.
Proof.
  intros Hret Hg. pose proof (wf_reachable ops) as H.
  destruct (tryEnterTable_returned _ _ _ _ Hret) as [_ ->].
  destruct (ensureTableMode__enters _ H) as (Hf & Hw & _ & _ & _).
  set (s1 := ensureTableMode_ (run ops reset_)) in *.
  destruct (setGranularity_fields g s1) as (Hf2 & _ & _ & Hw2 & _ & Hc2 & _).
  rewrite Hf in Hf2. rewrite Hw in Hw2, Hc2.
  set (s2 := setGranularity g s1) in *.
  destruct (setGranularity_fields (Num GROUP) s2) as (Hf3 & _ & _ & _ & _ & Hc3 & _).
  rewrite Hf2 in Hf3. rewrite Hw2 in Hc3.
  repeat split.
  - unfold isTableMode. rewrite Hf2. cbn [andb].
    apply bool_decide_eq_false_2. intros Hcur.
    rewrite Hc2 in Hcur.
    apply array_get_chain_special in Hcur as [-> _]; [| now left].
    now apply Hg.
  - intros sel' kwargs'. unfold tryEnterTable. now rewrite Hf2.
  - now rewrite Hw2.
  - unfold isTableMode. rewrite Hf3, Hc3. reflexivity.
  - exact Hc3.
Qed.

(** ** Leaving a math expression *)

(** More fuel does not change a walk that has ended. *)
Lemma nextContentLeaf_mono (fuel fuel' : nat) (n : Node) (rev : bool)
    (r : option Node) :
  nextContentLeaf fuel n rev = Some r -> (fuel <= fuel')%nat ->
  nextContentLeaf fuel' n rev = Some r.
Proof.
  revert fuel' n. induction fuel as [| fuel IH]; intros fuel' n Hrun Hle.
  - discriminate.
  - destruct fuel' as [| fuel']; [lia |]. simpl in *.
    destruct (directedNextLeafNode n rev) as [n' |]; [| exact Hrun].
    destruct (hasContent n'); [exact Hrun |].
    apply IH; [exact Hrun | lia].
Qed.

(** The loop computes the walk: what it returns is what [leafWalk]
    describes, and every walk that [leafWalk] describes is returned once the
    fuel suffices. *)
Lemma nextContentLeaf_sound (fuel : nat) (n : Node) (rev : bool)
    (r : option Node) :
  nextContentLeaf fuel n rev = Some r -> leafWalk rev n r.
Proof.
  revert n. induction fuel as [| fuel IH]; intros n Hrun; [discriminate |].
  simpl in Hrun.
  destruct (directedNextLeafNode n rev) as [n' |] eqn:Hnext.
  - destruct (hasContent n') eqn:Hc.
    + injection Hrun as <-. now apply walk_found.
    + eapply walk_skip; eauto.
  - injection Hrun as <-. now apply walk_end.
Qed.

Lemma nextContentLeaf_complete (n : Node) (rev : bool) (r : option Node) :
  leafWalk rev n r ->
  exists fuel0, forall fuel, (fuel0 <= fuel)%nat ->
    nextContentLeaf fuel n rev = Some r.
Proof.
  induction 1 as [n Hnext | n leaf Hnext Hc | n n' r Hnext Hc _ [fuel0 IH]].
  - exists 1%nat. intros [| fuel] Hle; [lia |]. simpl. now rewrite Hnext.
  - exists 1%nat. intros [| fuel] Hle; [lia |]. simpl. now rewrite Hnext, Hc.
  - exists (S fuel0). intros [| fuel] Hle; [lia |]. simpl.
    rewrite Hnext, Hc. apply IH. lia.
Qed.

(** At a rank in 0..6, after the exit from math mode [sync] goes to the
    walker the plain chain holds at that rank. *)
Lemma sync_after_math_exit (s : State) (r : Z) (sel : option CursorSelection) :
  wf s -> currentWalkerIndex_ s = Num r -> 0 <= r <= 6 ->
  exists w, array_get (chain GroupWalker) (Num r) = Some w /\
    sync sel (ensureNotMathMode s) =
    (Normal (walker_sync w sel), ensureNotMathMode s).
Proof.
  intros H Hidx Hr. wf_open H s. simpl in Hidx. subst.
  assert (Hcases : r = 0 \/ r = 1 \/ r = 2 \/ r = 3 \/ r = 4 \/ r = 5 \/ r = 6)
    by lia.
  destruct Hcases as [-> | [-> | [-> | [-> | [-> | [-> | ->]]]]]];
    eexists; split; reflexivity.
Qed.

(** C6: [tryExitMath(sel, rev)] leaves [isMathMode()] false; it returns
    null when [sel] is not inside a math expression; when it is, and [m] is
    the containing math node, then with enough fuel for the walk it returns
    [sync] of the selection built at the first content-bearing leaf met from
    [m] in direction [rev], with [rev] as its direction, and null when the
    leaves end before one is met. *)
Theorem tryExitMath_outcome (sel : CursorSelection) (rev : bool) (s : State) :
  (forall fuel, isMathMode (tryExitMath sel rev fuel s).2 = false) /\
  (isInMath sel = false ->
   forall fuel, (tryExitMath sel rev fuel s).1 = Normal None) /\
  (isInMath sel = true ->
   forall (m : Node) (r : option Node),
     getContainingMath (start_node sel) = Some m ->
     leafWalk rev m r ->
     exists fuel0, forall fuel, (fuel0 <= fuel)%nat ->
       tryExitMath sel rev fuel s =
       match r with
       | Some leaf =>
           sync (Some (setReversed rev (selectionAt leaf))) (ensureNotMathMode s)
       | None => (Normal None, ensureNotMathMode s)
       end).
Proof.
  repeat split.
  - intros fuel. rewrite tryExitMath_state. reflexivity.
  - intros Hout fuel. unfold tryExitMath. now rewrite Hout.
  - intros Hin m r Hm Hwalk.
    destruct (nextContentLeaf_complete m rev r Hwalk) as [fuel0 Hfuel].
    exists fuel0. intros fuel Hle. unfold tryExitMath.
    rewrite Hin, Hm, (Hfuel fuel Hle).
    destruct r; reflexivity.
Qed.

(** C10: [ensureNotMathMode] resets the math walker whether or not math
    mode is on, and so does [tryExitMath], whatever it then returns; any
    sub-mode commands given before are under that [reset]. *)
Theorem math_exit_resets_walker (s : State) :
  mathWalker_ (ensureNotMathMode s) = math_reset (mathWalker_ s) /\
  (forall sel rev fuel,
     mathWalker_ (tryExitMath sel rev fuel s).2 = math_reset (mathWalker_ s)) /\
  (forall cs : list SubMode,
     mathWalker_ (ensureNotMathMode (foldl (fun s c => subMode c s) s cs)) =
     math_reset (foldl (fun m c => math_subMode c m) (mathWalker_ s) cs)) /\
  (forall (cs : list SubMode) sel rev fuel,
     mathWalker_
       (tryExitMath sel rev fuel (foldl (fun s c => subMode c s) s cs)).2 =
     math_reset (foldl (fun m c => math_subMode c m) (mathWalker_ s) cs)).
Proof.
  assert (Hsub : forall cs s0,
    mathWalker_ (foldl (fun s c => subMode c s) s0 cs) =
    foldl (fun m c => math_subMode c m) (mathWalker_ s0) cs).
  { induction cs as [| c cs IH]; intros s0; [reflexivity |].
    simpl. rewrite IH. now destruct c. }
  repeat split.
  - intros sel rev fuel. now rewrite tryExitMath_state.
  - intros cs. cbn. now rewrite Hsub.
  - intros cs sel rev fuel. rewrite tryExitMath_state. cbn. now rewrite Hsub.
Qed.

(** ** Persisting the granularity *)

(** C7: [storeOn] adds the one key [granularity], holding what
    [getGranularity()] reports; [readFrom] of that store on a fresh shifter
    gives the fresh state with that rank as its index: not in table mode,
    not in math mode, not subnavigating, reporting the stored rank. *)
Theorem store_carries_only_granularity (s : State) (store : gmap string jsval) :
  (storeOn store s).1 = <["granularity" := (getGranularity s).1]> store /\
  readFrom (storeOn store s).1 reset_ =
    setGranularity (getGranularity s).1 reset_ /\
  isTableMode (readFrom (storeOn store s).1 reset_) = false /\
  isMathMode (readFrom (storeOn store s).1 reset_) = false /\
  isSubnavigating (readFrom (storeOn store s).1 reset_) = false /\
  (getGranularity (readFrom (storeOn store s).1 reset_)).1 = (getGranularity s).1.
Proof.
  assert (Hstore :
    (storeOn store s).1 = <["granularity" := (getGranularity s).1]> store).
  { unfold storeOn. now destruct (getGranularity s). }
  assert (Hread : readFrom (storeOn store s).1 reset_ =
                  setGranularity (getGranularity s).1 reset_).
  { unfold readFrom. rewrite Hstore, lookup_insert_eq. reflexivity. }
  rewrite Hread. repeat split; try assumption.
Qed.

(** [tryEnterMath] and then [tryEnterTable], both returning a selection:
    the table walker has taken the GROUP slot from the math walker. *)
Lemma math_then_table (ops : list Op) (sel1 sel2 r1 r2 : CursorSelection)
    (kwargs : option TableKwargs) :
  let s0 := run ops reset_ in
  let s1 := (tryEnterMath sel1 s0).2 in
  let s2 := (tryEnterTable sel2 kwargs s1).2 in
  (tryEnterMath sel1 s0).1 = Normal (Some r1) ->
  (tryEnterTable sel2 kwargs s1).1 = Normal (Some r2) ->
  isTableMode s2 = true /\ isMathMode s2 = false.
Proof.
  intros s0 s1 s2 _ H2.
  assert (Hwf : wf s1).
  { pose proof (wf_step (OTryEnterMath sel1) s0 (wf_run ops reset_ wf_reset_)) as H.
    cbn [step] in H. now rewrite fmapM_state in H. }
  assert (Ht : isTableMode s2 = true).
  { subst s2. apply tryEnterTable_returned in H2 as [_ ->].
    destruct (ensureTableMode__enters s1 Hwf) as (Hf & _ & _ & Hc & _).
    unfold isTableMode. now rewrite Hf, Hc. }
  split; [exact Ht |].
  pose proof (modes_exclusive s2) as Hex. rewrite Ht in Hex. exact Hex.
Qed.

End ShifterFacts.

(** * The shifter on the sample page *)

Section OnSamplePage.
Import SamplePage.
#[local] Existing Instance page.

(** At CHARACTER, in and out of subnavigation ends at WORD. *)
Lemma subnavigation_round_trip_at_CHARACTER_run :
  let ops := [OSetGranularity (Num CHARACTER)] in
  isSubnavigating_ (run ops reset_) = false /\
  currentWalkerIndex_ (run ops reset_) = Num CHARACTER /\
  (getGranularity
     (ensureNotSubnavigating (ensureSubnavigating (run ops reset_)))).1
  = Num WORD.
Proof.
  split; [reflexivity |]. split; [reflexivity |].
  apply (subnavigation_round_trip_at_CHARACTER [OSetGranularity (Num CHARACTER)]);
    reflexivity.
Defined.

(** Subnavigating below CHARACTER, the reported granularity is WORD. *)
Lemma getGranularity_subnavigating_at_CHARACTER_run :
  let ops := [OMakeMoreGranular; OReadFrom {["granularity" := Num CHARACTER]}] in
  isSubnavigating_ (run ops reset_) = false /\
  currentWalkerIndex_ (run ops reset_) = Num CHARACTER /\
  (getGranularity (ensureSubnavigating (run ops reset_))).1 = Num WORD.
Proof.
  split; [reflexivity |]. split; [reflexivity |].
  apply (getGranularity_subnavigating_at_CHARACTER
           [OMakeMoreGranular; OReadFrom {["granularity" := Num CHARACTER]}]);
    reflexivity.
Defined.

(** Math mode entered and the granularity moved to OBJECT, and a fresh
    shifter: [ensureNotTableMode] is not seen. *)
Lemma ensureNotTableMode_outside_modes_run :
  let ops := [OTryEnterMath atMathLeaf; OSetGranularity (Num OBJECT)] in
  (isTableMode (run ops reset_) = false /\
   isMathMode (run ops reset_) = false /\
   observe (ensureNotTableMode (run ops reset_)) = observe (run ops reset_)) /\
  (isTableMode_ (run [] reset_) = false /\
   isMathMode_ (run [] reset_) = false /\
   ensureNotTableMode (run [] reset_) = run [] reset_).
Proof.
  split.
  - split; [reflexivity |]. split; [reflexivity |].
    apply (ensureNotTableMode_outside_modes
             [OTryEnterMath atMathLeaf; OSetGranularity (Num OBJECT)]);
      reflexivity.
  - split; [reflexivity |]. split; [reflexivity |].
    apply (ensureNotTableMode_outside_modes []); reflexivity.
Defined.

(** In math mode the shifter is not in table mode, and
    [ensureNotTableMode] takes it out of math mode: [isMathMode()] turns
    false and the calls go to the group walker instead of the math
    walker. *)
Lemma ensureNotTableMode_ends_math_mode :
  let s := run [OTryEnterMath atMathLeaf] reset_ in
  isTableMode s = false /\
  isMathMode s = true /\
  isMathMode (ensureNotTableMode s) = false /\
  currentWalker_ s = Some MathWalker /\
  currentWalker_ (ensureNotTableMode s) = Some GroupWalker /\
  observe (ensureNotTableMode s) <> observe s.
Proof.
  repeat split. intros H.
  apply (f_equal seen_isMathMode) in H. discriminate H.
Qed.

(** A cell of the data table, with and without [fromTop], and a
    paragraph. *)
Lemma tryEnterTable_outcome_run :
  isTableMode_ (run [] reset_) = false /\
  (getContainingTable (start_node atParagraph) = None /\
   tryEnterTable atParagraph None (run [] reset_) = (Normal None, run [] reset_) /\
   isTableMode (run [] reset_) = false) /\
  (getContainingTable (start_node atCell) = Some 1%nat /\
   (tryEnterTable atCell None (run [] reset_)).1 = Normal (Some atCell) /\
   isTableMode (tryEnterTable atCell None (run [] reset_)).2 = true /\
   isSubnavigating (run [] reset_) = false /\
   (getGranularity (tryEnterTable atCell None (run [] reset_)).2).1 = Num GROUP).
Proof.
  split; [reflexivity |]. split.
  - split; [reflexivity |].
    apply (tryEnterTable_outcome [] atParagraph None); reflexivity.
  - split; [reflexivity |].
    destruct (tryEnterTable_outcome [] atCell None eq_refl) as [_ H].
    destruct (H 1%nat eq_refl eq_refl) as (Hr & Ht & Hg).
    split; [exact Hr |]. split; [exact Ht |]. split; [reflexivity |].
    exact (Hg eq_refl).
Defined.

(** A cell of the data table, entered from a subnavigating shifter. *)
Lemma tryEnterTable_while_subnavigating_run :
  let ops := [OEnsureSubnavigating] in
  isTableMode_ (run ops reset_) = false /\
  isSubnavigating (run ops reset_) = true /\
  getContainingTable (start_node atCell) = Some 1%nat /\
  force (default {| force := false; fromTop := false |} None)
    || negb (isLayoutTable 1%nat) = true /\
  isTableMode (tryEnterTable atCell None (run ops reset_)).2 = true /\
  isSubnavigating (tryEnterTable atCell None (run ops reset_)).2 = true /\
  currentWalkerIndex_ (tryEnterTable atCell None (run ops reset_)).2
    = Num GROUP /\
  (getGranularity (tryEnterTable atCell None (run ops reset_)).2).1
    = Num VISUAL.
Proof.
  split; [reflexivity |]. split; [reflexivity |]. split; [reflexivity |].
  split; [reflexivity |].
  apply (@tryEnterTable_while_subnavigating page [OEnsureSubnavigating]
           atCell None 1%nat); reflexivity.
Defined.

(** Table mode entered at a cell, then OBJECT granularity. *)
Lemma stale_table_flag_run :
  (tryEnterTable atCell None (run [] reset_)).1 = Normal (Some atCell) /\
  Num OBJECT <> Num GROUP /\
  let s2 := setGranularity (Num OBJECT)
              (tryEnterTable atCell None (run [] reset_)).2 in
  isTableMode s2 = false /\
  (forall sel' kwargs', tryEnterTable sel' kwargs' s2 = (Normal None, s2)) /\
  walkers_ s2 !! Z.to_nat GROUP = Some TableWalker /\
  isTableMode (setGranularity (Num GROUP) s2) = true /\
  currentWalker_ (setGranularity (Num GROUP) s2) = Some TableWalker.
Proof.
  split; [reflexivity |]. split; [discriminate |].
  apply (stale_table_flag [] atCell atCell None (Num OBJECT));
    [reflexivity | discriminate].
Defined.

(** Leaving the math expression forwards: the empty text node 8 is
    skipped and the selection lands on paragraph 9.  A paragraph is not
    inside math. *)
Lemma tryExitMath_outcome_run :
  let s := run [OTryEnterMath atMathLeaf] reset_ in
  (isInMath atParagraph = false /\
   forall fuel, (tryExitMath atParagraph false fuel s).1 = Normal None) /\
  (isInMath atMathLeaf = true /\
   getContainingMath (start_node atMathLeaf) = Some 6%nat /\
   @leafWalk page false 6%nat (Some 9%nat) /\
   exists fuel0, forall fuel, (fuel0 <= fuel)%nat ->
     tryExitMath atMathLeaf false fuel s =
     (Normal (Some (9%nat, false)), ensureNotMathMode s)).
Proof.
  assert (Hwalk : @leafWalk page false 6%nat (Some 9%nat)).
  { apply (@walk_skip page false 6%nat 8%nat); [reflexivity | reflexivity |].
    apply (@walk_found page false 8%nat 9%nat); reflexivity. }
  split.
  - split; [reflexivity |].
    apply (tryExitMath_outcome atParagraph false
             (run [OTryEnterMath atMathLeaf] reset_)).
    reflexivity.
  - split; [reflexivity |]. split; [reflexivity |]. split; [exact Hwalk |].
    destruct (tryExitMath_outcome atMathLeaf false
                (run [OTryEnterMath atMathLeaf] reset_)) as (_ & _ & H).
    exact (H eq_refl _ _ eq_refl Hwalk).
Defined.

End OnSamplePage.

(** * Further properties of the shifter *)

Section ShifterMore.
Context `{C : Collaborators}.

Ltac open_wf H s :=
  destruct s as [sub tm mm mw ws idx cur];
  destruct H as [(g & Hws & Hg) Hcur];
  simpl in Hws, Hg, Hcur; subst.

Ltac open_ranked R :=
  destruct R as (r & Hidx & Hr & Hsub); simpl in Hidx, Hsub; subst.

Ltac close_ranked :=
  eexists; split; [reflexivity | cbn; split; [lia | first [exact I | lia]]].

(** ** Ranks are kept *)

Lemma is_rank_spec (v : jsval) :
  is_rank v = true <-> exists r, v = Num r /\ 0 <= r <= 6.
Proof.
  destruct v as [z | |]; simpl.
  - rewrite andb_true_iff, !Z.leb_le. split.
    + intros Hz. now exists z.
    + intros (r & [= <-] & Hr). exact Hr.
  - split; [discriminate | intros (r & [=] & _)].
  - split; [discriminate | intros (r & [=] & _)].
Qed.

Lemma ranked_ensureNotSubnavigating (s : State) :
  wf s -> ranked s -> ranked (ensureNotSubnavigating s).
Proof.
  intros H R. open_wf H s. open_ranked R. destruct sub; close_ranked.
Qed.

Lemma ranked_makeLessGranular (s : State) :
  wf s -> ranked s -> ranked (makeLessGranular s).
Proof.
  intros H R. open_wf H s. open_ranked R. destruct sub; close_ranked.
Qed.

Lemma ranked_makeMoreGranular (s : State) :
  wf s -> ranked s -> ranked (makeMoreGranular s).
Proof.
  intros H R. open_wf H s. open_ranked R. destruct sub; close_ranked.
Qed.

Lemma ranked_setGranularity (g : jsval) (s : State) :
  is_rank g = true -> ranked (setGranularity g s).
Proof.
  intros (r & -> & Hr)%is_rank_spec.
  destruct (setGranularity_fields (Num r) s) as (_ & _ & _ & _ & Hi & _ & Hs).
  exists r. rewrite Hi, Hs. auto.
Qed.

Lemma ranked_ensureSubnavigating (s : State) :
  wf s -> ranked s -> ranked (ensureSubnavigating s).
Proof.
  intros H R. open_wf H s. open_ranked R. destruct sub; close_ranked.
Qed.

Lemma ranked_getGranularity (s : State) :
  wf s -> ranked s -> ranked (getGranularity s).2.
Proof.
  intros H R. open_wf H s. open_ranked R. destruct sub; close_ranked.
Qed.

Lemma ranked_ensureTableMode_ (s : State) : ranked (ensureTableMode_ s).
Proof.
  exists GROUP. split; [reflexivity |]. split; [unfold GROUP; lia |].
  cbn. destruct (isSubnavigating_ s); [unfold GROUP; lia | exact I].
Qed.

Lemma ranked_ensureMathMode_ (s : State) : ranked (ensureMathMode_ s).
Proof.
  exists GROUP. split; [reflexivity |]. split; [unfold GROUP; lia |].
  cbn. destruct (isSubnavigating_ s); [unfold GROUP; lia | exact I].
Qed.

Lemma ranked_ensureNotTableMode (s : State) :
  ranked s -> ranked (ensureNotTableMode s).
Proof. intros R. exact R. Qed.

Lemma ranked_ensureNotMathMode (s : State) :
  ranked s -> ranked (ensureNotMathMode s).
Proof. intros R. exact R. Qed.

Lemma ranked_reset_ : ranked reset_.
Proof. exists GROUP. repeat split; unfold GROUP; lia. Qed.

Lemma ranked_step (op : Op) (s : State) :
  wf s -> ranked s -> rank_safe op = true -> ranked (step op s).2.
Proof.
  intros H R Hop. destruct op; cbn [step]; rewrite ?fmapM_state;
    unfold modify, ret, next, act, getDescription, getBraille,
      getGranularityMsg, findNext, readFrom;
    rewrite ?onCurrentWalker_state, ?sync_state, ?syncToPageBeginning_state,
      ?tryExitMath_state;
    cbn [snd]; try exact R;
    auto using ranked_ensureNotSubnavigating, ranked_makeLessGranular,
      ranked_makeMoreGranular, ranked_setGranularity,
      ranked_ensureSubnavigating.
  - unfold storeOn. pose proof (ranked_getGranularity s H R) as Hg.
    destruct (getGranularity s); exact Hg.
  - destruct (syncNode_state sel s) as [-> | ->];
      now apply ranked_setGranularity.
  - pose proof (ranked_getGranularity s H R) as Hg.
    destruct (getGranularity s); exact Hg.
  - destruct (tryEnterTable_state sel kwargs s) as [-> | ->];
      [exact R | apply ranked_ensureTableMode_].
  - destruct (tryEnterMath_state sel s) as [-> | ->];
      [exact R | apply ranked_ensureMathMode_].
Qed.

Lemma ranked_run (ops : list Op) (s : State) :
  wf s -> ranked s -> forallb rank_safe ops = true -> ranked (run ops s).
Proof.
  revert s. induction ops as [| op ops IH]; intros s H R Hops; [exact R |].
  simpl in Hops. apply andb_true_iff in Hops as [Hop Hops].
  apply IH; [now apply wf_step | now apply ranked_step | exact Hops].
Qed.

Lemma ranked_current (s : State) :
  wf s -> ranked s -> exists w, currentWalker_ s = Some w.
Proof.
  intros H R. open_wf H s. open_ranked R.
  assert (Hcases : r = 0 \/ r = 1 \/ r = 2 \/ r = 3 \/ r = 4 \/ r = 5 \/ r = 6)
    by lia.
  destruct Hcases as [-> | [-> | [-> | [-> | [-> | [-> | ->]]]]]];
    eexists; reflexivity.
Qed.

Lemma onCurrentWalker_defined {A : Type} (f : Walker -> A) (s : State)
    (w : Walker) :
  currentWalker_ s = Some w -> onCurrentWalker f s = (Normal (f w), s).
Proof. intros Hw. unfold onCurrentWalker. now rewrite Hw. Qed.

Lemma onCurrentWalker_undefined {A : Type} (f : Walker -> A) (s : State) :
  currentWalker_ s = None -> onCurrentWalker f s = (TypeError, s).
Proof. intros Hw. unfold onCurrentWalker. now rewrite Hw. Qed.

Lemma fmapM_not_TypeError {A B : Type} (f : A -> B) (m : M A) (s : State) :
  (m s).1 <> TypeError -> (fmapM f m s).1 <> TypeError.
Proof.
  unfold fmapM, bind, ret. destruct (m s) as [[a | |] s']; cbn; congruence.
Qed.

Lemma onCurrentWalker_ranked {A : Type} (f : Walker -> A) (s : State) :
  wf s -> ranked s -> (onCurrentWalker f s).1 <> TypeError.
Proof.
  intros H R. destruct (ranked_current s H R) as [w Hw].
  now rewrite (onCurrentWalker_defined _ s w Hw).
Qed.

Lemma sync_ranked (sel : option CursorSelection) (s : State) :
  wf s -> ranked s -> (sync sel s).1 <> TypeError.
Proof. apply onCurrentWalker_ranked. Qed.

(** ** Setting and reading the granularity *)

Lemma getGranularity_setGranularity (g : jsval) (s : State) :
  getGranularity (setGranularity g s) = (g, setGranularity g s).
Proof.
  destruct (setGranularity_fields g s) as (_ & _ & _ & _ & Hi & _ & Hs).
  rewrite getGranularity_off by exact Hs. now rewrite Hi.
Qed.

(** X1: [setGranularity(g)] followed by [getGranularity()] reports [g], for every
    state and every value, and the query leaves the state as
    [setGranularity] left it; the same holds for [readFrom] of a store that
    holds [g] under [granularity]. *)
Theorem getGranularity_after_setGranularity (g : jsval) (s : State)
    (store : gmap string jsval) :
  getGranularity (setGranularity g s) = (g, setGranularity g s) /\
  getGranularity (readFrom (<["granularity" := g]> store) s)
    = (g, readFrom (<["granularity" := g]> store) s).
Proof.
  split; [apply getGranularity_setGranularity |].
  unfold readFrom. rewrite lookup_insert_eq. cbn [default].
  apply getGranularity_setGranularity.
Qed.

(** ** The chain of walkers *)

(** X2: After any sequence of operations the chain still has its seven entries
    in the order [reset_] gave them, except that the GROUP slot holds the
    group, table or math walker; the table walker is there only while the
    table flag is set, the math walker only while the math flag is set; and
    [currentWalker_] is the chain read at the current index. *)
Theorem chain_shape (ops : list Op) :
  exists g,
    walkers_ (run ops reset_) =
      [CharacterWalker; WordWalker; LineWalker; SentenceWalker;
       ObjectWalker; g; VisualWalker] /\
    (g = GroupWalker \/ g = TableWalker \/ g = MathWalker) /\
    (g = TableWalker -> isTableMode_ (run ops reset_) = true) /\
    (g = MathWalker -> isMathMode_ (run ops reset_) = true) /\
    currentWalker_ (run ops reset_) =
      array_get (walkers_ (run ops reset_)) (currentWalkerIndex_ (run ops reset_)).
Proof.
  destruct (wf_reachable ops) as [(g & Hws & Hg) Hcur].
  exists g. split; [exact Hws |].
  destruct g; simpl in Hg; try contradiction;
    (split; [auto |]);
    (split; [intros E; first [discriminate E | exact Hg] |]);
    (split; [intros E; first [discriminate E | exact Hg] | exact Hcur]).
Qed.

(** X3: Table mode and math mode are seen only at GROUP granularity: when
    [isTableMode()] holds the index is GROUP and the GROUP slot holds the
    table walker, and likewise for [isMathMode()] and the math walker. *)
Theorem mode_only_at_GROUP (ops : list Op) :
  (isTableMode (run ops reset_) = true ->
   currentWalkerIndex_ (run ops reset_) = Num GROUP /\
   walkers_ (run ops reset_) !! Z.to_nat GROUP = Some TableWalker) /\
  (isMathMode (run ops reset_) = true ->
   currentWalkerIndex_ (run ops reset_) = Num GROUP /\
   walkers_ (run ops reset_) !! Z.to_nat GROUP = Some MathWalker).
Proof.
  destruct (wf_reachable ops) as [(g & Hws & _) Hcur].
  set (s := run ops reset_) in *. rewrite Hws in Hcur.
  unfold isTableMode, isMathMode. split; intros Hm;
    apply andb_true_iff in Hm as [_ Hm]; apply bool_decide_eq_true in Hm;
    rewrite Hcur in Hm;
    (apply array_get_chain_special in Hm as [Hi <-]; [| auto]);
    rewrite Hws; split; [exact Hi | reflexivity | exact Hi | reflexivity].
Qed.

(** ** Operations given ranks only *)

(** X4: When every [setGranularity] argument and every stored granularity read
    by [readFrom] is a rank, the index stays a rank, is below VISUAL while
    subnavigating, and there is a current walker. *)
Theorem rank_kept (ops : list Op) :
  forallb rank_safe ops = true ->
  exists r w,
    currentWalkerIndex_ (run ops reset_) = Num r /\ 0 <= r <= 6 /\
    (isSubnavigating (run ops reset_) = true -> r <= 5) /\
    currentWalker_ (run ops reset_) = Some w.
Proof.
  intros Hops.
  pose proof (wf_reachable ops) as H.
  pose proof (ranked_run ops reset_ wf_reset_ ranked_reset_ Hops) as R.
  destruct (ranked_current _ H R) as [w Hw].
  destruct R as (r & Hi & Hr & Hs).
  exists r, w. repeat split; try assumption; try lia.
  unfold isSubnavigating. intros E. now rewrite E in Hs.
Qed.

(** X5: After such a sequence no public operation throws, whatever its
    arguments. *)
Theorem no_throw_with_ranks (ops : list Op) (op : Op) :
  forallb rank_safe ops = true ->
  (step op (run ops reset_)).1 <> TypeError.
Proof.
  intros Hops.
  pose proof (wf_reachable ops) as H.
  pose proof (ranked_run ops reset_ wf_reset_ ranked_reset_ Hops) as R.
  set (s := run ops reset_) in *.
  destruct (ranked_current s H R) as [w Hw].
  destruct op; cbn [step]; try (apply fmapM_not_TypeError);
    unfold modify, ret, next, act, getDescription, getBraille,
      getGranularityMsg, findNext;
    rewrite ?(onCurrentWalker_defined _ s w Hw); cbn [fst];
    try discriminate.
  - unfold syncToPageBeginning, bind, modify.
    apply (onCurrentWalker_ranked _ (ensureNotTableMode s));
      [now apply wf_ensureNotTableMode | exact R].
  - now apply sync_ranked.
  - unfold syncNode, bind, modify, ret.
    match goal with |- context [if ?b then _ else _] => destruct b end;
      match goal with |- context [sync ?o ?x] =>
        pose proof (sync_ranked o x) as Hs; destruct (sync o x) as [[a | |] s']
      end; cbn in *; try discriminate;
      exfalso; apply Hs; auto using wf_setGranularity, ranked_setGranularity.
  - unfold tryEnterTable.
    destruct (isTableMode_ s); [discriminate |].
    destruct (getContainingTable (start_node sel)); [| discriminate].
    destruct (_ || _); [| discriminate].
    destruct (fromTop _); [discriminate |].
    apply sync_ranked;
      [now apply wf_ensureTableMode_ | apply ranked_ensureTableMode_].
  - unfold tryEnterMath.
    destruct (isMathMode_ s); [discriminate |].
    destruct (getContainingMath (start_node sel)); [| discriminate].
    apply sync_ranked;
      [now apply wf_ensureMathMode_ | apply ranked_ensureMathMode_].
  - unfold tryExitMath.
    destruct (isInMath sel); [| discriminate].
    destruct (getContainingMath (start_node sel)); [| discriminate].
    destruct (nextContentLeaf fuel n rev) as [leaf |]; [| discriminate].
    destruct (fromNode leaf); [| discriminate].
    apply sync_ranked; [now apply wf_ensureNotMathMode | exact R].
Qed.

Lemma current_by_rank (s : State) :
  wf s ->
  (is_rank (currentWalkerIndex_ s) = true -> exists w, currentWalker_ s = Some w) /\
  (is_rank (currentWalkerIndex_ s) = false -> currentWalker_ s = None).
Proof.
  intros H. open_wf H s. cbn. split.
  - intros (r & -> & Hr)%is_rank_spec.
    assert (Hcases : r = 0 \/ r = 1 \/ r = 2 \/ r = 3 \/ r = 4 \/ r = 5 \/ r = 6)
      by lia.
    destruct Hcases as [-> | [-> | [-> | [-> | [-> | [-> | ->]]]]]];
      eexists; reflexivity.
  - destruct idx as [z | |]; try reflexivity. cbn.
    intros Hz. apply andb_false_iff in Hz.
    destruct (0 <=? z) eqn:E; [| reflexivity].
    apply Z.leb_le in E. apply lookup_ge_None. cbn.
    destruct Hz as [Hz | Hz]; [discriminate |].
    apply Z.leb_gt in Hz. lia.
Qed.

(** X6: The calls forwarded to the current walker return its answer while the
    index is a rank and throw when it is not. *)
Theorem forwarding_by_rank (ops : list Op) (sel : CursorSelection) :
  (is_rank (currentWalkerIndex_ (run ops reset_)) = true ->
   exists w, currentWalker_ (run ops reset_) = Some w /\
     next sel (run ops reset_) = (Normal (walker_next w sel), run ops reset_) /\
     sync (Some sel) (run ops reset_) =
       (Normal (walker_sync w (Some sel)), run ops reset_) /\
     act sel (run ops reset_) = (Normal (walker_act w sel), run ops reset_) /\
     getGranularityMsg (run ops reset_) =
       (Normal (walker_getGranularityMsg w), run ops reset_)) /\
  (is_rank (currentWalkerIndex_ (run ops reset_)) = false ->
   currentWalker_ (run ops reset_) = None /\
   next sel (run ops reset_) = (TypeError, run ops reset_) /\
   sync (Some sel) (run ops reset_) = (TypeError, run ops reset_) /\
   act sel (run ops reset_) = (TypeError, run ops reset_) /\
   getGranularityMsg (run ops reset_) = (TypeError, run ops reset_)).
Proof.
  pose proof (wf_reachable ops) as H.
  destruct (current_by_rank _ H) as [Hin Hout].
  set (s := run ops reset_) in *. split; intros Hrank.
  - destruct (Hin Hrank) as [w Hw]. exists w.
    unfold next, sync, act, getGranularityMsg.
    now rewrite !(onCurrentWalker_defined _ s w Hw).
  - specialize (Hout Hrank).
    unfold next, sync, act, getGranularityMsg.
    now rewrite !(onCurrentWalker_undefined _ s Hout).
Qed.

(** ** A store without the key *)

Lemma shifts_not_a_number (bs : list bool) (s : State) :
  isSubnavigating_ s = false ->
  (currentWalkerIndex_ s = Undefined \/ currentWalkerIndex_ s = NaN) ->
  currentWalker_ s = None ->
  isSubnavigating_ (shifts bs s) = false /\
  (currentWalkerIndex_ (shifts bs s) = Undefined \/
   currentWalkerIndex_ (shifts bs s) = NaN) /\
  (bs <> [] -> currentWalkerIndex_ (shifts bs s) = NaN) /\
  currentWalker_ (shifts bs s) = None.
Proof.
  revert s. induction bs as [| b bs IH]; intros s Hsub Hidx Hcur.
  - repeat split; try assumption. congruence.
  - assert (Hnext :
      isSubnavigating_ (if b then makeMoreGranular s else makeLessGranular s)
        = false /\
      currentWalkerIndex_ (if b then makeMoreGranular s else makeLessGranular s)
        = NaN /\
      currentWalker_ (if b then makeMoreGranular s else makeLessGranular s)
        = None).
    { destruct s as [sub tm mm mw ws idx cur]. simpl in Hsub, Hidx, Hcur. subst.
      destruct b, Hidx as [-> | ->]; repeat split. }
    destruct Hnext as (Hs' & Hi' & Hc').
    destruct (IH _ Hs' (or_intror Hi') Hc') as (Hs2 & Hi2 & Hn2 & Hc2).
    change (shifts (b :: bs) s)
      with (shifts bs (if b then makeMoreGranular s else makeLessGranular s)).
    repeat split; try assumption. intros _.
    destruct bs as [| b' bs']; [exact Hi' | apply Hn2; discriminate].
Qed.

(** X7: [readFrom] of a store with no [granularity] key sets the index to
    [undefined]: [getGranularity()] reports [undefined], there is no current
    walker, the forwarded calls throw, and [makeMoreGranular] and
    [makeLessGranular], in any number and order, turn the index into NaN
    and bring no walker back. *)
Theorem readFrom_without_key (store : gmap string jsval) (s : State)
    (bs : list bool) (sel : CursorSelection) :
  store !! "granularity" = None ->
  getGranularity (readFrom store s) = (Undefined, readFrom store s) /\
  (bs <> [] -> (getGranularity (shifts bs (readFrom store s))).1 = NaN) /\
  currentWalker_ (shifts bs (readFrom store s)) = None /\
  (next sel (shifts bs (readFrom store s))).1 = TypeError /\
  (sync (Some sel) (shifts bs (readFrom store s))).1 = TypeError.
Proof.
  intros Hkey. unfold readFrom. rewrite Hkey. cbn [default].
  destruct (setGranularity_fields Undefined s)
    as (_ & _ & _ & _ & Hi & Hc & Hs).
  assert (Hc' : currentWalker_ (setGranularity Undefined s) = None)
    by (rewrite Hc; reflexivity).
  destruct (shifts_not_a_number bs _ Hs (or_introl Hi) Hc')
    as (Hs2 & _ & Hn2 & Hc2).
  split; [rewrite getGranularity_off by exact Hs; now rewrite Hi |].
  split; [| split; [exact Hc2 |]].
  - intros Hbs. rewrite getGranularity_off by exact Hs2. now apply Hn2.
  - unfold next, sync.
    now rewrite !(onCurrentWalker_undefined _ _ Hc2).
Qed.

(** ** Store and read back on one shifter *)

(** X8: On a shifter that is not subnavigating, [storeOn] leaves the shifter as
    it is and every other key of the store as it is, and [readFrom] of the
    store just written gives the same state again. *)
Theorem store_then_read_back (ops : list Op) (store : gmap string jsval) :
  isSubnavigating (run ops reset_) = false ->
  (storeOn store (run ops reset_)).2 = run ops reset_ /\
  (forall k, k <> "granularity" ->
     (storeOn store (run ops reset_)).1 !! k = store !! k) /\
  (storeOn store (run ops reset_)).1 !! "granularity"
    = Some (currentWalkerIndex_ (run ops reset_)) /\
  readFrom (storeOn store (run ops reset_)).1 (run ops reset_) = run ops reset_.
Proof.
  intros Hsub. pose proof (wf_reachable ops) as H.
  set (s := run ops reset_) in *. unfold isSubnavigating in Hsub.
  unfold storeOn. rewrite (getGranularity_off s Hsub). cbn [fst snd].
  split; [reflexivity |]. split; [| split].
  - intros k Hk. now apply lookup_insert_ne.
  - apply lookup_insert_eq.
  - unfold readFrom. rewrite lookup_insert_eq. cbn [default].
    open_wf H s. simpl in Hsub. subst. reflexivity.
Qed.

(** ** Queries that do not disturb *)

(** X9: When only ranks were ever given, [getGranularity] and [storeOn] leave
    every field of the shifter as it was, subnavigating or not. *)
Theorem getGranularity_pure_with_ranks (ops : list Op)
    (store : gmap string jsval) :
  forallb rank_safe ops = true ->
  (getGranularity (run ops reset_)).2 = run ops reset_ /\
  (storeOn store (run ops reset_)).2 = run ops reset_.
Proof.
  intros Hops.
  pose proof (wf_reachable ops) as H.
  pose proof (ranked_run ops reset_ wf_reset_ ranked_reset_ Hops) as R.
  set (s := run ops reset_) in *.
  assert (Hg : (getGranularity s).2 = s).
  { open_wf H s. open_ranked R. destruct sub; [| reflexivity].
    unfold getGranularity, isSubnavigating, ensureSubnavigating,
      makeMoreGranular, ensureNotSubnavigating, shiftLess,
      refreshCurrentWalker. cbn.
    replace (Z.max (Z.min (r + 1) (Z.of_nat 7 - 1) - 1) 0) with r by lia.
    reflexivity. }
  split; [exact Hg |].
  unfold storeOn. destruct (getGranularity s) as [v s'] eqn:E.
  cbn [snd] in *. exact Hg.
Qed.

(** ** One step more and one step less granular *)

(** X10: Without subnavigation and at rank [r]: between CHARACTER and VISUAL the
    two shifts undo each other, at CHARACTER [makeMoreGranular] changes
    nothing, and at VISUAL [makeLessGranular] changes nothing. *)
Theorem shifts_undo_and_clamp (ops : list Op) (r : Z) :
  isSubnavigating (run ops reset_) = false ->
  currentWalkerIndex_ (run ops reset_) = Num r ->
  (1 <= r <= 6 ->
   currentWalkerIndex_ (makeMoreGranular (run ops reset_)) = Num (r - 1) /\
   makeLessGranular (makeMoreGranular (run ops reset_)) = run ops reset_) /\
  (0 <= r <= 5 ->
   currentWalkerIndex_ (makeLessGranular (run ops reset_)) = Num (r + 1) /\
   makeMoreGranular (makeLessGranular (run ops reset_)) = run ops reset_) /\
  (r = CHARACTER -> makeMoreGranular (run ops reset_) = run ops reset_) /\
  (r = VISUAL -> makeLessGranular (run ops reset_) = run ops reset_).
Proof.
  intros Hsub Hidx. pose proof (wf_reachable ops) as H.
  set (s := run ops reset_) in *. unfold isSubnavigating in Hsub.
  open_wf H s. simpl in Hsub, Hidx. subst.
  unfold makeLessGranular, makeMoreGranular, ensureNotSubnavigating,
    shiftLess, refreshCurrentWalker. cbn.
  split; [| split; [| split]].
  - intros Hr. split; [f_equal; lia |].
    replace (Z.min (Z.max (r - 1) 0 + 1) (Z.of_nat 7 - 1)) with r by lia.
    reflexivity.
  - intros Hr. split; [f_equal; lia |].
    replace (Z.max (Z.min (r + 1) (Z.of_nat 7 - 1) - 1) 0) with r by lia.
    reflexivity.
  - intros ->. reflexivity.
  - intros ->. reflexivity.
Qed.

(** ** Subnavigation above CHARACTER *)

(** X11: From rank [r] in WORD..VISUAL, not subnavigating: [ensureSubnavigating]
    moves the index to [r - 1] and sets the flag, a second call changes
    nothing, [getGranularity()] still reports [r] and leaves the state as it
    is, and [ensureNotSubnavigating] gives the state before
    subnavigation. *)
Theorem subnavigation_above_CHARACTER (ops : list Op) (r : Z) :
  isSubnavigating (run ops reset_) = false ->
  currentWalkerIndex_ (run ops reset_) = Num r ->
  1 <= r <= 6 ->
  currentWalkerIndex_ (ensureSubnavigating (run ops reset_)) = Num (r - 1) /\
  isSubnavigating (ensureSubnavigating (run ops reset_)) = true /\
  ensureSubnavigating (ensureSubnavigating (run ops reset_))
    = ensureSubnavigating (run ops reset_) /\
  getGranularity (ensureSubnavigating (run ops reset_))
    = (Num r, ensureSubnavigating (run ops reset_)) /\
  ensureNotSubnavigating (ensureSubnavigating (run ops reset_))
    = run ops reset_.
Proof.
  intros Hsub Hidx Hr. pose proof (wf_reachable ops) as H.
  set (s := run ops reset_) in *. unfold isSubnavigating in Hsub.
  assert (Hflag : isSubnavigating_ (ensureSubnavigating s) = true).
  { unfold ensureSubnavigating. now rewrite Hsub. }
  split; [| split; [exact Hflag | split; [| split]]].
  - unfold ensureSubnavigating, makeMoreGranular. rewrite Hsub.
    rewrite (ensureNotSubnavigating_off s Hsub), Hidx. cbn. f_equal. lia.
  - unfold ensureSubnavigating at 1. now rewrite Hflag.
  - now apply getGranularity_while_subnavigating.
  - now apply (subnavigation_round_trip s r).
Qed.

(** ** Entering a math expression *)

Lemma ensureMathMode__enters (s : State) :
  wf s ->
  isMathMode_ (ensureMathMode_ s) = true /\
  walkers_ (ensureMathMode_ s) = chain MathWalker /\
  currentWalkerIndex_ (ensureMathMode_ s) = Num GROUP /\
  currentWalker_ (ensureMathMode_ s) = Some MathWalker /\
  mathWalker_ (ensureMathMode_ s) =
    math_setSavedGranularity (currentWalkerIndex_ s) (mathWalker_ s) /\
  isSubnavigating_ (ensureMathMode_ s) = isSubnavigating_ s.
Proof. intros H. open_wf H s. repeat split. Qed.

Lemma tryEnterMath_enters (sel : CursorSelection) (s : State) (m : Node) :
  wf s -> isMathMode_ s = false ->
  getContainingMath (start_node sel) = Some m ->
  tryEnterMath sel s =
  (Normal (walker_sync MathWalker (Some sel)), ensureMathMode_ s).
Proof.
  intros H Hflag Hm. unfold tryEnterMath. rewrite Hflag, Hm.
  destruct (ensureMathMode__enters s H) as (_ & _ & _ & Hc & _).
  unfold sync. now rewrite (onCurrentWalker_defined _ _ _ Hc).
Qed.

(** X12: With the math flag clear: a selection outside math gives null and
    leaves the state alone; a selection inside math sets math mode, returns
    the math walker's [sync] of it, puts the index at GROUP, hands the index
    held before to the math walker's [setSavedGranularity], and makes every
    further [tryEnterMath] return null without effect. *)
Theorem tryEnterMath_outcome (ops : list Op) (sel : CursorSelection) :
  isMathMode_ (run ops reset_) = false ->
  (getContainingMath (start_node sel) = None ->
   tryEnterMath sel (run ops reset_) = (Normal None, run ops reset_)) /\
  (forall m : Node,
     getContainingMath (start_node sel) = Some m ->
     (tryEnterMath sel (run ops reset_)).1 =
       Normal (walker_sync MathWalker (Some sel)) /\
     isMathMode (tryEnterMath sel (run ops reset_)).2 = true /\
     isTableMode (tryEnterMath sel (run ops reset_)).2 = false /\
     currentWalkerIndex_ (tryEnterMath sel (run ops reset_)).2 = Num GROUP /\
     mathWalker_ (tryEnterMath sel (run ops reset_)).2 =
       math_setSavedGranularity (currentWalkerIndex_ (run ops reset_))
         (mathWalker_ (run ops reset_)) /\
     (forall sel',
        tryEnterMath sel' (tryEnterMath sel (run ops reset_)).2 =
        (Normal None, (tryEnterMath sel (run ops reset_)).2))).
Proof.
  intros Hflag. pose proof (wf_reachable ops) as H.
  set (s := run ops reset_) in *. split.
  - intros Hnone. unfold tryEnterMath. now rewrite Hflag, Hnone.
  - intros m Hm. rewrite (tryEnterMath_enters sel s m H Hflag Hm).
    cbn [fst snd].
    destruct (ensureMathMode__enters s H) as (Hf & _ & Hi & Hc & Hw & _).
    assert (Hmath : isMathMode (ensureMathMode_ s) = true).
    { unfold isMathMode. now rewrite Hf, Hc. }
    assert (Htable : isTableMode (ensureMathMode_ s) = false).
    { pose proof (modes_exclusive (ensureMathMode_ s)) as Hex.
      rewrite Hmath, andb_true_r in Hex. exact Hex. }
    split; [reflexivity |]. split; [exact Hmath |]. split; [exact Htable |].
    split; [exact Hi |]. split; [exact Hw |].
    intros sel'. unfold tryEnterMath. now rewrite Hf.
Qed.

Lemma exit_after_enter (s : State) :
  wf s ->
  currentWalkerIndex_ (ensureNotMathMode (ensureMathMode_ s)) = Num GROUP /\
  currentWalker_ (ensureNotMathMode (ensureMathMode_ s)) = Some GroupWalker /\
  isMathMode_ (ensureNotMathMode (ensureMathMode_ s)) = false /\
  mathWalker_ (ensureNotMathMode (ensureMathMode_ s)) =
    math_reset (math_setSavedGranularity (currentWalkerIndex_ s)
                  (mathWalker_ s)) /\
  isSubnavigating_ (ensureNotMathMode (ensureMathMode_ s)) = isSubnavigating_ s.
Proof. intros H. open_wf H s. repeat split. Qed.

(** X13: After a math expression was entered from any rank, [tryExitMath] (with
    any arguments and fuel) leaves the shifter at GROUP with the group
    walker current: the rank handed to [setSavedGranularity] on entry is
    not put back. *)
Theorem math_exit_lands_on_GROUP (ops : list Op) (sel sel' : CursorSelection)
    (m : Node) (rev : bool) (fuel : nat) :
  isMathMode_ (run ops reset_) = false ->
  getContainingMath (start_node sel) = Some m ->
  let s2 := (tryExitMath sel' rev fuel (tryEnterMath sel (run ops reset_)).2).2 in
  currentWalkerIndex_ s2 = Num GROUP /\
  currentWalker_ s2 = Some GroupWalker /\
  isMathMode s2 = false /\
  mathWalker_ s2 =
    math_reset (math_setSavedGranularity (currentWalkerIndex_ (run ops reset_))
                  (mathWalker_ (run ops reset_))) /\
  (isSubnavigating (run ops reset_) = false ->
   (getGranularity s2).1 = Num GROUP).
Proof.
  intros Hflag Hm. pose proof (wf_reachable ops) as H.
  set (s := run ops reset_) in *.
  rewrite (tryEnterMath_enters sel s m H Hflag Hm). cbn [snd].
  rewrite tryExitMath_state. cbn zeta.
  destruct (exit_after_enter s H) as (Hi & Hc & Hf & Hw & Hs).
  split; [exact Hi |]. split; [exact Hc |].
  split; [unfold isMathMode; now rewrite Hf |]. split; [exact Hw |].
  intros Hsub. rewrite getGranularity_off; [exact Hi |].
  rewrite Hs. exact Hsub.
Qed.

(** ** Entering and leaving a table *)

(** X14: With both flags clear, after [tryEnterTable] has entered a table every
    further [tryEnterTable] returns null without effect, and
    [ensureNotTableMode] gives the state before entry except that the index
    is GROUP and the group walker current; it is the state before entry
    when the index was GROUP already. *)
Theorem table_enter_then_leave (ops : list Op) (sel : CursorSelection)
    (kwargs : option TableKwargs) (t : Node) :
  isTableMode_ (run ops reset_) = false ->
  isMathMode_ (run ops reset_) = false ->
  getContainingTable (start_node sel) = Some t ->
  force (default {| force := false; fromTop := false |} kwargs)
    || negb (isLayoutTable t) = true ->
  let s1 := (tryEnterTable sel kwargs (run ops reset_)).2 in
  (forall sel' kwargs', tryEnterTable sel' kwargs' s1 = (Normal None, s1)) /\
  isTableMode (ensureNotTableMode s1) = false /\
  ensureNotTableMode s1 =
    set_currentWalker (Some GroupWalker)
      (set_currentWalkerIndex (Num GROUP) (run ops reset_)) /\
  (currentWalkerIndex_ (run ops reset_) = Num GROUP ->
   ensureNotTableMode s1 = run ops reset_).
Proof.
  intros Ht Hm Hin Hok. pose proof (wf_reachable ops) as H.
  set (s := run ops reset_) in *.
  rewrite (tryEnterTable_enters sel kwargs s t H Ht Hin Hok). cbn [snd]. cbn zeta.
  destruct (ensureTableMode__enters s H) as (Hf & _).
  split; [intros sel' kwargs'; unfold tryEnterTable; now rewrite Hf |].
  split; [reflexivity |].
  open_wf H s. simpl in Ht, Hm. subst.
  destruct g; simpl in Hg; try contradiction; try discriminate.
  split; [reflexivity |]. cbn. intros ->. reflexivity.
Qed.

(** X15: [tryEnterTable] returns a selection only if the table flag was clear and
    the start node lies in a table that is not a layout table or is entered
    under [force]; in a layout table, without [kwargs] or with [force]
    false, it returns null and changes nothing. *)
Theorem tryEnterTable_only_enters (sel : CursorSelection) (s : State) :
  (forall kwargs r,
     (tryEnterTable sel kwargs s).1 = Normal (Some r) ->
     isTableMode_ s = false /\
     exists t, getContainingTable (start_node sel) = Some t /\
       (force (default {| force := false; fromTop := false |} kwargs) = true \/
        isLayoutTable t = false)) /\
  (forall t, getContainingTable (start_node sel) = Some t ->
     isLayoutTable t = true ->
     tryEnterTable sel None s = (Normal None, s) /\
     forall top,
       tryEnterTable sel (Some {| force := false; fromTop := top |}) s
       = (Normal None, s)).
Proof.
  split.
  - intros kwargs r. unfold tryEnterTable.
    destruct (isTableMode_ s); [discriminate |].
    destruct (getContainingTable (start_node sel)) as [t |]; [| discriminate].
    destruct (force _) eqn:Ef; cbn [orb].
    + intros _. split; [reflexivity |]. exists t. auto.
    + destruct (isLayoutTable t) eqn:El; cbn [negb]; [discriminate |].
      intros _. split; [reflexivity |]. exists t. auto.
  - intros t Ht Hl. unfold tryEnterTable. rewrite Ht. cbn. rewrite Hl. cbn.
    split; [| intros top]; now destruct (isTableMode_ s).
Qed.

(** ** Going to the page beginning *)

Lemma plain_chain_walker (v : jsval) (w : Walker) :
  array_get (chain GroupWalker) v = Some w ->
  w <> TableWalker /\ w <> MathWalker.
Proof.
  intros Hw. split; intros ->;
    (apply array_get_chain_special in Hw as [_ [=]]; auto).
Qed.

Lemma syncToPageBeginning_leaves_table_aux (ops : list Op) (reversed : bool) :
  (syncToPageBeginning reversed (run ops reset_)).2
    = ensureNotTableMode (run ops reset_) /\
  isMathMode (ensureNotTableMode (run ops reset_)) = false.
Proof.
  pose proof (wf_reachable ops) as H.
  set (s := run ops reset_) in *.
  split; [apply syncToPageBeginning_state |].
  assert (Hcur : currentWalker_ (ensureNotTableMode s)
                 = array_get (chain GroupWalker) (currentWalkerIndex_ s)).
  { open_wf H s. reflexivity. }
  unfold isMathMode. rewrite Hcur.
  destruct (isMathMode_ (ensureNotTableMode s)); [| reflexivity]. cbn.
  apply bool_decide_eq_false_2. intros Hw.
  now apply plain_chain_walker in Hw as [_ Hw].
Qed.

(** X16: [syncToPageBeginning] ends in neither table nor math mode, with the
    table flag clear; at a rank it returns the answer of the walker the
    plain chain holds there, which is never the table or the math walker;
    off the ranks it throws, with table mode already left. *)
Theorem syncToPageBeginning_leaves_table (ops : list Op) (reversed : bool) :
  (syncToPageBeginning reversed (run ops reset_)).2
    = ensureNotTableMode (run ops reset_) /\
  isTableMode_ (syncToPageBeginning reversed (run ops reset_)).2 = false /\
  isTableMode (syncToPageBeginning reversed (run ops reset_)).2 = false /\
  isMathMode (syncToPageBeginning reversed (run ops reset_)).2 = false /\
  (is_rank (currentWalkerIndex_ (run ops reset_)) = true ->
   exists w,
     array_get (chain GroupWalker) (currentWalkerIndex_ (run ops reset_))
       = Some w /\
     w <> TableWalker /\ w <> MathWalker /\
     (syncToPageBeginning reversed (run ops reset_)).1 =
       Normal (walker_syncToPageBeginning w reversed)) /\
  (is_rank (currentWalkerIndex_ (run ops reset_)) = false ->
   (syncToPageBeginning reversed (run ops reset_)).1 = TypeError).
Proof.
  pose proof (wf_reachable ops) as H.
  set (s := run ops reset_) in *.
  rewrite syncToPageBeginning_state.
  assert (Hcur : currentWalker_ (ensureNotTableMode s)
                 = array_get (chain GroupWalker) (currentWalkerIndex_ s)).
  { open_wf H s. reflexivity. }
  pose proof (wf_ensureNotTableMode s H) as H'.
  destruct (current_by_rank _ H') as [Hin Hout].
  change (currentWalkerIndex_ (ensureNotTableMode s))
    with (currentWalkerIndex_ s) in Hin, Hout.
  split; [reflexivity |]. split; [reflexivity |]. split; [reflexivity |].
  split; [| split].
  - unfold isMathMode. rewrite Hcur.
    destruct (isMathMode_ (ensureNotTableMode s)); [| reflexivity]. cbn.
    apply bool_decide_eq_false_2. intros Hw.
    now apply plain_chain_walker in Hw as [_ Hw].
  - intros Hrank. destruct (Hin Hrank) as [w Hw]. exists w.
    rewrite <- Hcur. split; [exact Hw |].
    rewrite Hcur in Hw. destruct (plain_chain_walker _ _ Hw) as [Ht Hm].
    split; [exact Ht |]. split; [exact Hm |].
    unfold syncToPageBeginning, bind, modify.
    rewrite <- Hcur in Hw. now rewrite (onCurrentWalker_defined _ _ _ Hw).
  - intros Hrank. specialize (Hout Hrank).
    unfold syncToPageBeginning, bind, modify.
    now rewrite (onCurrentWalker_undefined _ _ Hout).
Qed.

(** ** Syncing to a node *)

(** X17: [syncNode] does not throw, whatever the index was; it ends without
    subnavigation at OBJECT, returning the object walker's [sync], when the
    group walker's [sync] has more than one focusable descendant under its
    start node, and otherwise at GROUP, returning the group walker's
    [sync], also in table or math mode and also when that is null. *)
Theorem syncNode_outcome (ops : list Op) (sel : CursorSelection) :
  let group := walker_sync GroupWalker (Some sel) in
  let object := walker_sync ObjectWalker (Some sel) in
  let many :=
    match group with
    | Some g => bool_decide (1 < countFocusableDescendants (start_node g))%nat
    | None => false
    end in
  syncNode sel (run ops reset_) =
    (if many then (Normal object, setGranularity (Num OBJECT) (run ops reset_))
     else (Normal group, setGranularity (Num GROUP) (run ops reset_))) /\
  isSubnavigating (syncNode sel (run ops reset_)).2 = false /\
  (getGranularity (syncNode sel (run ops reset_)).2).1 =
    Num (if many then OBJECT else GROUP).
Proof.
  intros group object many. pose proof (wf_reachable ops) as H.
  set (s := run ops reset_) in *.
  assert (Hsync : forall g o, is_rank g = true ->
            sync o (setGranularity g s) =
            (Normal (walker_sync
                       (default GroupWalker (currentWalker_ (setGranularity g s)))
                       o),
             setGranularity g s)).
  { intros g o Hg.
    pose proof (wf_setGranularity g s H) as H'.
    destruct (ranked_current _ H' (ranked_setGranularity g s Hg)) as [w Hw].
    unfold sync. now rewrite (onCurrentWalker_defined _ _ _ Hw), Hw. }
  assert (Heq : syncNode sel s =
    (if many then (Normal object, setGranularity (Num OBJECT) s)
     else (Normal group, setGranularity (Num GROUP) s))).
  { unfold syncNode. fold group object many.
    destruct many; unfold bind, modify; rewrite Hsync by reflexivity;
      reflexivity. }
  rewrite Heq. split; [reflexivity |].
  destruct many; cbn [snd].
  - split; [apply (ensureNotSubnavigating_clears s) |].
    now rewrite getGranularity_setGranularity.
  - split; [apply (ensureNotSubnavigating_clears s) |].
    now rewrite getGranularity_setGranularity.
Qed.

(** ** What [tryExitMath] can return *)

Lemma leafWalk_has_content (rev : bool) (n leaf : Node) :
  leafWalk rev n (Some leaf) -> hasContent leaf = true.
Proof.
  intros Hwalk. remember (Some leaf) as r eqn:Er.
  induction Hwalk as [n Hn | n l Hn Hc | n n' r Hn Hc _ IH].
  - discriminate.
  - now injection Er as ->.
  - now apply IH.
Qed.

(** X18: A selection returned by [tryExitMath] is the current walker's [sync] of
    the selection built, with direction [rev], at a leaf that has content
    and is the first such leaf met from the math node containing the start
    of [sel]; and [sel] is inside math. *)
Theorem tryExitMath_returned (sel r : CursorSelection) (rev : bool)
    (fuel : nat) (s : State) :
  (tryExitMath sel rev fuel s).1 = Normal (Some r) ->
  isInMath sel = true /\
  exists m leaf w,
    getContainingMath (start_node sel) = Some m /\
    leafWalk rev m (Some leaf) /\
    hasContent leaf = true /\
    currentWalker_ (ensureNotMathMode s) = Some w /\
    walker_sync w (Some (setReversed rev (selectionAt leaf))) = Some r.
Proof.
  unfold tryExitMath.
  destruct (isInMath sel); [| discriminate].
  destruct (getContainingMath (start_node sel)) as [m |]; [| discriminate].
  destruct (nextContentLeaf fuel m rev) as [[leaf |] |] eqn:Hloop;
    cbn; try discriminate.
  unfold sync, onCurrentWalker.
  destruct (currentWalker_ (ensureNotMathMode s)) as [w |] eqn:Hw;
    [| discriminate].
  cbn. intros [= Hr]. split; [reflexivity |].
  apply nextContentLeaf_sound in Hloop.
  exists m, leaf, w. repeat split; try assumption.
  now apply (leafWalk_has_content rev m).
Qed.

(** ** A math flag that outlives math mode *)

(** X19: With the math flag set, [ensureNotTableMode], and so
    [syncToPageBeginning], takes the math walker out of the chain but leaves
    the flag: the shifter is then in neither mode, yet [tryEnterMath]
    returns null without effect for every selection; after
    [ensureNotMathMode] a selection inside math enters math mode again. *)
Theorem stale_math_flag (ops : list Op) (reversed : bool) :
  isMathMode_ (run ops reset_) = true ->
  let s1 := ensureNotTableMode (run ops reset_) in
  (syncToPageBeginning reversed (run ops reset_)).2 = s1 /\
  isTableMode s1 = false /\
  isMathMode s1 = false /\
  (forall sel, tryEnterMath sel s1 = (Normal None, s1)) /\
  (forall sel m,
     getContainingMath (start_node sel) = Some m ->
     isMathMode (tryEnterMath sel (ensureNotMathMode s1)).2 = true).
Proof.
  intros Hflag. pose proof (wf_reachable ops) as H.
  destruct (syncToPageBeginning_leaves_table_aux ops reversed) as (Hs & Hm).
  set (s := run ops reset_) in *. cbn zeta.
  split; [exact Hs |]. split; [reflexivity |]. split; [exact Hm |]. split.
  - intros sel. unfold tryEnterMath.
    change (isMathMode_ (ensureNotTableMode s)) with (isMathMode_ s).
    now rewrite Hflag.
  - intros sel m Hin.
    pose proof (wf_ensureNotMathMode _ (wf_ensureNotTableMode s H)) as H'.
    rewrite (tryEnterMath_enters sel _ m H' eq_refl Hin). cbn [snd].
    destruct (ensureMathMode__enters _ H') as (Hf & _ & _ & Hc & _).
    unfold isMathMode. now rewrite Hf, Hc.
Qed.

End ShifterMore.

(** * The further properties on the sample page *)

Section MoreOnSamplePage.
Import SamplePage.
#[local] Existing Instance page.

Lemma mode_only_at_GROUP_run :
  (isTableMode (run [OTryEnterTable atCell None] reset_) = true /\
   currentWalkerIndex_ (run [OTryEnterTable atCell None] reset_) = Num GROUP /\
   walkers_ (run [OTryEnterTable atCell None] reset_) !! Z.to_nat GROUP
     = Some TableWalker) /\
  (isMathMode (run [OTryEnterMath atMathLeaf] reset_) = true /\
   currentWalkerIndex_ (run [OTryEnterMath atMathLeaf] reset_) = Num GROUP /\
   walkers_ (run [OTryEnterMath atMathLeaf] reset_) !! Z.to_nat GROUP
     = Some MathWalker).
Proof.
  split; (split; [reflexivity |]).
  - destruct (@mode_only_at_GROUP page [OTryEnterTable atCell None]) as [H _].
    exact (H eq_refl).
  - destruct (@mode_only_at_GROUP page [OTryEnterMath atMathLeaf]) as [_ H].
    exact (H eq_refl).
Defined.

Lemma rank_kept_run :
  let ops := [OSetGranularity (Num WORD); OEnsureSubnavigating;
              OTryEnterTable atCell None;
              OReadFrom {["granularity" := Num VISUAL]}] in
  forallb rank_safe ops = true /\
  exists r w,
    currentWalkerIndex_ (run ops reset_) = Num r /\ 0 <= r <= 6 /\
    (isSubnavigating (run ops reset_) = true -> r <= 5) /\
    currentWalker_ (run ops reset_) = Some w.
Proof.
  split; [reflexivity |].
  apply (@rank_kept page
           [OSetGranularity (Num WORD); OEnsureSubnavigating;
            OTryEnterTable atCell None;
            OReadFrom {["granularity" := Num VISUAL]}]).
  reflexivity.
Defined.

Lemma no_throw_with_ranks_run :
  let ops := [OSetGranularity (Num CHARACTER); OEnsureSubnavigating;
              OTryEnterMath atMathLeaf] in
  forallb rank_safe ops = true /\
  (step (OTryExitMath atMathLeaf false 3) (run ops reset_)).1 <> TypeError.
Proof.
  split; [reflexivity |].
  apply (@no_throw_with_ranks page
           [OSetGranularity (Num CHARACTER); OEnsureSubnavigating;
            OTryEnterMath atMathLeaf]).
  reflexivity.
Defined.

Lemma forwarding_by_rank_run :
  (is_rank (currentWalkerIndex_ (run [] reset_)) = true /\
   next atParagraph (run [] reset_)
     = (Normal (walker_next GroupWalker atParagraph), run [] reset_)) /\
  (is_rank (currentWalkerIndex_ (run [OSetGranularity (Num 7)] reset_)) = false /\
   next atParagraph (run [OSetGranularity (Num 7)] reset_)
     = (TypeError, run [OSetGranularity (Num 7)] reset_)).
Proof.
  split; (split; [reflexivity |]).
  - destruct (@forwarding_by_rank page [] atParagraph) as [H _].
    destruct (H eq_refl) as (w & Hw & Hnext & _).
    injection Hw as <-. exact Hnext.
  - destruct (@forwarding_by_rank page [OSetGranularity (Num 7)] atParagraph)
      as [_ H].
    exact (proj1 (proj2 (H eq_refl))).
Defined.

Lemma readFrom_without_key_run :
  (∅ : gmap string jsval) !! "granularity" = None /\
  getGranularity (readFrom ∅ reset_) = (Undefined, readFrom ∅ reset_) /\
  (getGranularity (shifts [true; false] (readFrom ∅ reset_))).1 = NaN /\
  (next atParagraph (shifts [true; false] (readFrom ∅ reset_))).1 = TypeError.
Proof.
  split; [apply lookup_empty |].
  destruct (@readFrom_without_key page ∅ reset_ [true; false] atParagraph
              (lookup_empty _)) as (Hg & Hn & _ & Hnext & _).
  split; [exact Hg |]. split; [apply Hn; discriminate | exact Hnext].
Defined.

Lemma store_then_read_back_run :
  let ops := [OTryEnterTable atCell None; OMakeMoreGranular] in
  isSubnavigating (run ops reset_) = false /\
  (storeOn ∅ (run ops reset_)).1 !! "granularity" = Some (Num OBJECT) /\
  readFrom (storeOn ∅ (run ops reset_)).1 (run ops reset_) = run ops reset_.
Proof.
  split; [reflexivity |].
  destruct (@store_then_read_back page
              [OTryEnterTable atCell None; OMakeMoreGranular] ∅ eq_refl)
    as (_ & _ & Hkey & Hread).
  split; [exact Hkey | exact Hread].
Defined.

Lemma getGranularity_pure_with_ranks_run :
  let ops := [OEnsureSubnavigating] in
  forallb rank_safe ops = true /\
  (getGranularity (run ops reset_)).2 = run ops reset_ /\
  (storeOn ∅ (run ops reset_)).2 = run ops reset_.
Proof.
  split; [reflexivity |].
  apply (@getGranularity_pure_with_ranks page [OEnsureSubnavigating] ∅).
  reflexivity.
Defined.

Lemma shifts_undo_and_clamp_run :
  (isSubnavigating (run [] reset_) = false /\
   currentWalkerIndex_ (run [] reset_) = Num 5 /\
   makeLessGranular (makeMoreGranular (run [] reset_)) = run [] reset_ /\
   makeMoreGranular (makeLessGranular (run [] reset_)) = run [] reset_) /\
  (isSubnavigating (run [OSetGranularity (Num CHARACTER)] reset_) = false /\
   currentWalkerIndex_ (run [OSetGranularity (Num CHARACTER)] reset_)
     = Num CHARACTER /\
   makeMoreGranular (run [OSetGranularity (Num CHARACTER)] reset_)
     = run [OSetGranularity (Num CHARACTER)] reset_) /\
  (isSubnavigating (run [OSetGranularity (Num VISUAL)] reset_) = false /\
   currentWalkerIndex_ (run [OSetGranularity (Num VISUAL)] reset_)
     = Num VISUAL /\
   makeLessGranular (run [OSetGranularity (Num VISUAL)] reset_)
     = run [OSetGranularity (Num VISUAL)] reset_).
Proof.
  split; [| split]; (split; [reflexivity |]); (split; [reflexivity |]).
  - destruct (@shifts_undo_and_clamp page [] 5 eq_refl eq_refl)
      as (Hup & Hdown & _).
    split; [apply Hup; lia | apply Hdown; lia].
  - destruct (@shifts_undo_and_clamp page [OSetGranularity (Num CHARACTER)]
                CHARACTER eq_refl eq_refl) as (_ & _ & Hc & _).
    exact (Hc eq_refl).
  - destruct (@shifts_undo_and_clamp page [OSetGranularity (Num VISUAL)]
                VISUAL eq_refl eq_refl) as (_ & _ & _ & Hv).
    exact (Hv eq_refl).
Defined.

Lemma subnavigation_above_CHARACTER_run :
  isSubnavigating (run [] reset_) = false /\
  currentWalkerIndex_ (run [] reset_) = Num 5 /\
  1 <= 5 <= 6 /\
  currentWalkerIndex_ (ensureSubnavigating (run [] reset_)) = Num (5 - 1) /\
  getGranularity (ensureSubnavigating (run [] reset_))
    = (Num 5, ensureSubnavigating (run [] reset_)) /\
  ensureNotSubnavigating (ensureSubnavigating (run [] reset_)) = run [] reset_.
Proof.
  split; [reflexivity |]. split; [reflexivity |]. split; [lia |].
  destruct (@subnavigation_above_CHARACTER page [] 5 eq_refl eq_refl)
    as (Hi & _ & _ & Hg & Hback); [lia |].
  split; [exact Hi |]. split; [exact Hg | exact Hback].
Defined.

Lemma tryEnterMath_outcome_run :
  isMathMode_ (run [OMakeMoreGranular] reset_) = false /\
  (getContainingMath (start_node atParagraph) = None /\
   tryEnterMath atParagraph (run [OMakeMoreGranular] reset_)
     = (Normal None, run [OMakeMoreGranular] reset_)) /\
  (getContainingMath (start_node atMathLeaf) = Some 6%nat /\
   (tryEnterMath atMathLeaf (run [OMakeMoreGranular] reset_)).1
     = Normal (Some atMathLeaf) /\
   isMathMode (tryEnterMath atMathLeaf (run [OMakeMoreGranular] reset_)).2
     = true /\
   saved (mathWalker_
            (tryEnterMath atMathLeaf (run [OMakeMoreGranular] reset_)).2)
     = Num OBJECT).
Proof.
  split; [reflexivity |]. split; (split; [reflexivity |]).
  - destruct (@tryEnterMath_outcome page [OMakeMoreGranular] atParagraph
                eq_refl) as [H _].
    exact (H eq_refl).
  - destruct (@tryEnterMath_outcome page [OMakeMoreGranular] atMathLeaf
                eq_refl) as [_ H].
    destruct (H 6%nat eq_refl) as (Hr & Hm & _ & _ & Hw & _).
    split; [exact Hr |]. split; [exact Hm |]. now rewrite Hw.
Defined.

Lemma math_exit_lands_on_GROUP_run :
  let ops := [OSetGranularity (Num WORD)] in
  isMathMode_ (run ops reset_) = false /\
  getContainingMath (start_node atMathLeaf) = Some 6%nat /\
  currentWalkerIndex_ (run ops reset_) = Num WORD /\
  let s2 := (tryExitMath atMathLeaf false 3
               (tryEnterMath atMathLeaf (run ops reset_)).2).2 in
  currentWalkerIndex_ s2 = Num GROUP /\
  currentWalker_ s2 = Some GroupWalker /\
  (getGranularity s2).1 = Num GROUP.
Proof.
  split; [reflexivity |]. split; [reflexivity |]. split; [reflexivity |].
  destruct (@math_exit_lands_on_GROUP page [OSetGranularity (Num WORD)]
              atMathLeaf atMathLeaf 6%nat false 3%nat eq_refl eq_refl)
    as (Hi & Hc & _ & _ & Hg).
  split; [exact Hi |]. split; [exact Hc | exact (Hg eq_refl)].
Defined.

Lemma table_enter_then_leave_run :
  isTableMode_ (run [] reset_) = false /\
  isMathMode_ (run [] reset_) = false /\
  getContainingTable (start_node atCell) = Some 1%nat /\
  currentWalkerIndex_ (run [] reset_) = Num GROUP /\
  let s1 := (tryEnterTable atCell None (run [] reset_)).2 in
  tryEnterTable atCell None s1 = (Normal None, s1) /\
  ensureNotTableMode s1 = run [] reset_.
Proof.
  split; [reflexivity |]. split; [reflexivity |]. split; [reflexivity |].
  split; [reflexivity |].
  destruct (@table_enter_then_leave page [] atCell None 1%nat
              eq_refl eq_refl eq_refl eq_refl) as (Hagain & _ & _ & Hback).
  split; [apply Hagain | exact (Hback eq_refl)].
Defined.

Lemma tryEnterTable_only_enters_run :
  ((tryEnterTable atCell None reset_).1 = Normal (Some atCell) /\
   isTableMode_ reset_ = false /\
   exists t, getContainingTable (start_node atCell) = Some t /\
     (force (default {| force := false; fromTop := false |} None) = true \/
      isLayoutTable t = false)) /\
  (getContainingTable (start_node atLayoutCell) = Some 4%nat /\
   isLayoutTable 4%nat = true /\
   tryEnterTable atLayoutCell None reset_ = (Normal None, reset_)).
Proof.
  split.
  - split; [reflexivity |].
    destruct (@tryEnterTable_only_enters page atCell reset_) as [H _].
    exact (H None atCell eq_refl).
  - split; [reflexivity |]. split; [reflexivity |].
    destruct (@tryEnterTable_only_enters page atLayoutCell reset_) as [_ H].
    exact (proj1 (H 4%nat eq_refl eq_refl)).
Defined.

Lemma syncToPageBeginning_leaves_table_run :
  (is_rank (currentWalkerIndex_ (run [OTryEnterTable atCell None] reset_))
     = true /\
   isTableMode (run [OTryEnterTable atCell None] reset_) = true /\
   isTableMode
     (syncToPageBeginning false (run [OTryEnterTable atCell None] reset_)).2
     = false /\
   exists w, w <> TableWalker /\
     (syncToPageBeginning false (run [OTryEnterTable atCell None] reset_)).1
     = Normal (walker_syncToPageBeginning w false)) /\
  (is_rank (currentWalkerIndex_ (run [OSetGranularity NaN] reset_)) = false /\
   (syncToPageBeginning false (run [OSetGranularity NaN] reset_)).1
     = TypeError).
Proof.
  split.
  - split; [reflexivity |]. split; [reflexivity |].
    destruct (@syncToPageBeginning_leaves_table page
                [OTryEnterTable atCell None] false)
      as (_ & _ & Ht & _ & Hin & _).
    split; [exact Ht |].
    destruct (Hin eq_refl) as (w & _ & Hw & _ & Hr).
    exists w. split; [exact Hw | exact Hr].
  - split; [reflexivity |].
    destruct (@syncToPageBeginning_leaves_table page
                [OSetGranularity NaN] false) as (_ & _ & _ & _ & _ & Hout).
    exact (Hout eq_refl).
Defined.

Lemma tryExitMath_returned_run :
  let s := run [OTryEnterMath atMathLeaf] reset_ in
  (tryExitMath atMathLeaf false 3 s).1 = Normal (Some (9%nat, false)) /\
  isInMath atMathLeaf = true /\
  exists m leaf w,
    getContainingMath (start_node atMathLeaf) = Some m /\
    @leafWalk page false m (Some leaf) /\
    hasContent leaf = true /\
    currentWalker_ (ensureNotMathMode s) = Some w /\
    walker_sync w (Some (setReversed false (selectionAt leaf)))
      = Some (9%nat, false).
Proof.
  split; [reflexivity |].
  apply (@tryExitMath_returned page atMathLeaf (9%nat, false) false 3%nat
           (run [OTryEnterMath atMathLeaf] reset_)).
  reflexivity.
Defined.

Lemma stale_math_flag_run :
  let s := run [OTryEnterMath atMathLeaf] reset_ in
  isMathMode_ s = true /\
  isMathMode s = true /\
  isMathMode (syncToPageBeginning false s).2 = false /\
  tryEnterMath atMathLeaf (ensureNotTableMode s)
    = (Normal None, ensureNotTableMode s) /\
  isMathMode
    (tryEnterMath atMathLeaf (ensureNotMathMode (ensureNotTableMode s))).2
    = true.
Proof.
  split; [reflexivity |]. split; [reflexivity |].
  destruct (@stale_math_flag page [OTryEnterMath atMathLeaf] false eq_refl)
    as (Hs & _ & Hm & Hnull & Hagain).
  split; [rewrite Hs; exact Hm |].
  split; [apply Hnull | exact (Hagain atMathLeaf 6%nat eq_refl)].
Defined.

End MoreOnSamplePage.
